(** * AI Competitor Tracker: extraction, deduplication and aggregation

    A shallow embedding of the scraping pipeline of the repository
    ([scraper.py], [google_scraper.py], [utils.py]) and the proofs of the
    properties its specification states about it.

    Layout:
    - [PyStr]: the Python string operations the code relies on;
    - [Soup]: the fragment of BeautifulSoup the code calls (a parsed tree,
      CSS selection in document order, [get_text(strip=True)], attributes);
    - [Url]: [urllib.parse.urljoin];
    - [Py]: exceptions, results and the state monad of the effectful code;
    - the embedded functions, file by file, under the names they have in
      the source;
    - the theorems. *)

From stdpp Require Import gmap strings list fin_maps pretty.
From Stdlib Require Import String Ascii ZArith Lia OrderedTypeEx.

Open Scope string_scope.
Set Warnings "-register-all".

(* ===================================================================== *)
(** * Python strings *)
(* ===================================================================== *)

(** A Python [str] is a sequence of code points; it is modelled by [string],
    one character per unit of length. *)
Module PyStr.

(** [s[:n]] *)
Fixpoint take (n : nat) (s : string) : string :=
  match n, s with
  | S n', String c s' => String c (take n' s')
  | _, _ => EmptyString
  end.

(** [s[n:]] *)
Fixpoint drop (n : nat) (s : string) : string :=
  match n, s with
  | S n', String _ s' => drop n' s'
  | _, _ => s
  end.

(** [s.startswith(p)] *)
Definition startswith (s p : string) : bool := String.prefix p s.

(** [sub in s] *)
Fixpoint contains (sub s : string) : bool :=
  String.prefix sub s ||
  match s with
  | EmptyString => false
  | String _ s' => contains sub s'
  end.

(** Truth value of a string: [bool(s)]. *)
Definition truthy (s : string) : bool :=
  match s with EmptyString => false | _ => true end.

(** The characters [str.strip()] removes (the ASCII ones). *)
Definition is_space (c : ascii) : bool :=
  let n := nat_of_ascii c in
  (Nat.leb 9 n && Nat.leb n 13) || (Nat.leb 28 n && Nat.leb n 32).

Fixpoint lstrip (s : string) : string :=
  match s with
  | String c s' => if is_space c then lstrip s' else s
  | EmptyString => EmptyString
  end.

(** [rstrip]: a character is kept when something non-blank follows it or it is
    itself non-blank. *)
Fixpoint rstrip (s : string) : string :=
  match s with
  | String c s' =>
      match rstrip s' with
      | EmptyString => if is_space c then EmptyString else String c EmptyString
      | r => String c r
      end
  | EmptyString => EmptyString
  end.

Definition strip (s : string) : string := rstrip (lstrip s).

(** [s.split()]: the maximal runs of non-blank characters. *)
Fixpoint split_ws_aux (cur : string) (s : string) : list string :=
  match s with
  | EmptyString => if truthy cur then [cur] else []
  | String c s' =>
      if is_space c
      then (if truthy cur then cur :: split_ws_aux EmptyString s'
            else split_ws_aux EmptyString s')
      else split_ws_aux (cur ++ String c EmptyString) s'
  end.

Definition split_ws (s : string) : list string := split_ws_aux EmptyString s.

(** [sep.join(l)] *)
Definition join (sep : string) (l : list string) : string := String.concat sep l.

(** [s.replace(' ', '_')], the only replacement the code performs. *)
Fixpoint replace_char (a b : ascii) (s : string) : string :=
  match s with
  | EmptyString => EmptyString
  | String c s' => String (if Ascii.eqb c a then b else c) (replace_char a b s')
  end.

(** [s.split(sep)] for a one-character separator: never empty. *)
Fixpoint split_on_aux (sep : ascii) (cur : string) (s : string) : list string :=
  match s with
  | EmptyString => [cur]
  | String c s' =>
      if Ascii.eqb c sep then cur :: split_on_aux sep EmptyString s'
      else split_on_aux sep (cur ++ String c EmptyString) s'
  end.

Definition split_on (sep : ascii) (s : string) : list string :=
  split_on_aux sep EmptyString s.

(** [c * n] for a one-character string [c] *)
Fixpoint repeat (c : ascii) (n : nat) : string :=
  match n with
  | 0 => EmptyString
  | S n' => String c (repeat c n')
  end.

(** Index of the first occurrence of a character. *)
Fixpoint find_char (p : ascii -> bool) (s : string) : option nat :=
  match s with
  | EmptyString => None
  | String c s' => if p c then Some 0 else S <$> find_char p s'
  end.

End PyStr.

(* ===================================================================== *)
(** * BeautifulSoup *)
(* ===================================================================== *)

(** The tree [BeautifulSoup(content, 'html.parser')] builds.  Parsing is the
    library's own work: a page is represented by its tree.  Tag and attribute
    names are in lower case, as the parser leaves them. *)
Module Soup.

Inductive node : Type :=
| Text (s : string)
| Elem (tag : string) (attrs : list (string * string)) (children : list node).

(** [tag.get(name)]: [attrs] lists each attribute once. *)
Fixpoint assoc (k : string) (l : list (string * string)) : option string :=
  match l with
  | [] => None
  | (k', v) :: r => if String.eqb k k' then Some v else assoc k r
  end.

Definition get (n : node) (name : string) : option string :=
  match n with
  | Text _ => None
  | Elem _ attrs _ => assoc name attrs
  end.

(** [tag.get(name, default)] *)
Definition get_default (n : node) (name : string) (default : string) : string :=
  match get n name with
  | Some v => v
  | None => default
  end.

(** Every element below [n], in document order, each with its parent. *)
Fixpoint descendants_of (n : node) : list (node * node) :=
  match n with
  | Text _ => []
  | Elem _ _ cs =>
      (fix go (l : list node) : list (node * node) :=
         match l with
         | [] => []
         | c :: r =>
             match c with
             | Text _ => go r
             | Elem _ _ _ => (n, c) :: (descendants_of c ++ go r)%list
             end
         end) cs
  end.

Definition descendants (n : node) : list node := (descendants_of n).*2.

(** The strings below [n], in document order. *)
Fixpoint strings (n : node) : list string :=
  match n with
  | Text s => [s]
  | Elem _ _ cs =>
      (fix go (l : list node) : list string :=
         match l with
         | [] => []
         | c :: r => (strings c ++ go r)%list
         end) cs
  end.

(** [tag.get_text(strip=True)]: every string is stripped, the empty ones are
    dropped and the rest are concatenated with no separator. *)
Definition get_text_strip (n : node) : string :=
  PyStr.join "" (List.filter PyStr.truthy (List.map PyStr.strip (strings n))).

(** ** CSS selectors

    The selectors the code passes to [select] and [select_one] are type, class
    and attribute selectors, compounded and grouped by commas.  A selector
    text is represented by what soupsieve makes of it: the selector it
    denotes, or, for a text it cannot parse, [SelMalformed] with that text. *)
Inductive simple_selector : Type :=
| SelTag (name : string)                  (* [h2] *)
| SelClass (c : string)                   (* [.headline] *)
| SelAttr (a : string)                    (* [[datetime]] *)
| SelAttrContains (a : string) (v : string) (* [[class*="title"]] *)
| SelMalformed (text : string).           (* [div[] *)

(** A compound selector such as [div.glue-grid__col]: all parts hold. *)
Definition compound : Type := list simple_selector.

(** A selector group such as [h2, h3]: one alternative holds. *)
Definition css : Type := list compound.

Definition tag_of (n : node) : option string :=
  match n with
  | Text _ => None
  | Elem t _ _ => Some t
  end.

Definition in_list (s : string) (l : list string) : bool :=
  existsb (String.eqb s) l.

(** The value an attribute selector compares: [class] is multi-valued and is
    seen as its tokens joined by one space. *)
Definition attr_value (n : node) (a : string) : option string :=
  match get n a with
  | Some v => if String.eqb a "class" then Some (PyStr.join " " (PyStr.split_ws v)) else Some v
  | None => None
  end.

Definition matches_simple (s : simple_selector) (n : node) : bool :=
  match s with
  | SelTag name => match tag_of n with Some t => String.eqb t name | None => false end
  | SelClass c => match get n "class" with Some v => in_list c (PyStr.split_ws v) | None => false end
  | SelAttr a => match get n a with Some _ => true | None => false end
  | SelAttrContains a v =>
      match attr_value n a with Some w => PyStr.contains v w | None => false end
  | SelMalformed _ => false
  end.

Definition matches_compound (c : compound) (n : node) : bool :=
  forallb (fun s => matches_simple s n) c.

Definition matches (sel : css) (n : node) : bool :=
  existsb (fun c => matches_compound c n) sel.

(** The selector text does not parse: [select] and [select_one] raise
    [SelectorSyntaxError] on it. *)
Definition is_malformed (s : simple_selector) : bool :=
  match s with
  | SelMalformed _ => true
  | _ => false
  end.

Definition malformed (sel : css) : bool := existsb (existsb is_malformed) sel.

(** [tag.select(sel)] for a selector that parses: the matching descendants in
    document order. *)
Definition select (sel : css) (n : node) : list node :=
  List.filter (matches sel) (descendants n).

(** [tag.select_one(sel)] for a selector that parses *)
Definition select_one (sel : css) (n : node) : option node :=
  head (select sel n).

(** [soup.find_all('a', href=re.compile(pattern))] for a pattern that is a
    literal followed by [.*]: the anchors whose [href] contains the literal.
    Each is returned with its [.parent]. *)
Definition find_all_a_href (literal : string) (n : node) : list (node * node) :=
  List.filter (fun pc => matches [[SelTag "a"; SelAttrContains "href" literal]] pc.2)
              (descendants_of n).

End Soup.

(* ===================================================================== *)
(** * urllib.parse.urljoin *)
(* ===================================================================== *)

(** The reference resolution of [urllib.parse.urljoin], following the
    library's algorithm step by step: [urlsplit] of both arguments, the
    scheme and network-location tests, the merge of the path segments and
    the removal of dot segments, [urlunsplit].  Path parameters ([;]) stay
    part of the path segment that carries them. *)
Module Url.

Record parts : Type := mk_parts {
  scheme : string;
  netloc : string;
  path : string;
  query : string;
  fragment : string
}.

Definition between (lo hi : nat) (c : ascii) : bool :=
  let n := nat_of_ascii c in Nat.leb lo n && Nat.leb n hi.

Definition is_alpha (c : ascii) : bool := between 65 90 c || between 97 122 c.
Definition is_digit (c : ascii) : bool := between 48 57 c.

Definition scheme_char (c : ascii) : bool :=
  is_alpha c || is_digit c || Ascii.eqb c "+" || Ascii.eqb c "-" || Ascii.eqb c ".".

Definition lower_char (c : ascii) : ascii :=
  if between 65 90 c then ascii_of_nat (nat_of_ascii c + 32) else c.

Fixpoint all_chars (p : ascii -> bool) (s : string) : bool :=
  match s with
  | EmptyString => true
  | String c s' => p c && all_chars p s'
  end.

Fixpoint lower (s : string) : string :=
  match s with
  | EmptyString => EmptyString
  | String c s' => String (lower_char c) (lower s')
  end.

(** [s.split(c, 1)] when [c] occurs in [s]. *)
Definition split_first (p : ascii -> bool) (s : string) : option (string * string) :=
  match PyStr.find_char p s with
  | Some i => Some (PyStr.take i s, PyStr.drop (S i) s)
  | None => None
  end.

Definition uses_relative : list string :=
  [""; "ftp"; "http"; "gopher"; "nntp"; "imap"; "wais"; "file"; "https";
   "shttp"; "mms"; "prospero"; "rtsp"; "rtspu"; "sftp"; "svn"; "svn+ssh";
   "ws"; "wss"].

Definition uses_netloc : list string :=
  [""; "ftp"; "http"; "gopher"; "nntp"; "telnet"; "imap"; "wais"; "file";
   "mms"; "https"; "shttp"; "snews"; "prospero"; "rtsp"; "rtspu"; "rsync";
   "svn"; "svn+ssh"; "sftp"; "nfs"; "git"; "git+ssh"; "ws"; "wss"].

Definition mem (s : string) (l : list string) : bool := existsb (String.eqb s) l.

Definition urlsplit (url : string) (default_scheme : string) : parts :=
  let '(sch, url) :=
    match PyStr.find_char (Ascii.eqb ":") url, url with
    | Some (S i), String c0 _ =>
        if is_alpha c0 && all_chars scheme_char (PyStr.take (S i) url)
        then (lower (PyStr.take (S i) url), PyStr.drop (S (S i)) url)
        else (default_scheme, url)
    | _, _ => (default_scheme, url)
    end in
  let '(loc, url) :=
    if PyStr.startswith url "//" then
      let rest := PyStr.drop 2 url in
      match PyStr.find_char (fun c => Ascii.eqb c "/" || Ascii.eqb c "?" || Ascii.eqb c "#") rest with
      | Some j => (PyStr.take j rest, PyStr.drop j rest)
      | None => (rest, "")
      end
    else ("", url) in
  let '(url, frag) :=
    match split_first (Ascii.eqb "#") url with
    | Some uf => uf
    | None => (url, "")
    end in
  let '(url, qry) :=
    match split_first (Ascii.eqb "?") url with
    | Some uq => uq
    | None => (url, "")
    end in
  mk_parts sch loc url qry frag.

Definition urlunsplit (p : parts) : string :=
  let url := path p in
  let url :=
    if PyStr.truthy (netloc p)
       || (PyStr.truthy (scheme p) && mem (scheme p) uses_netloc
           && negb (PyStr.startswith url "//"))
    then
      let url := if PyStr.truthy url && negb (PyStr.startswith url "/")
                 then "/" ++ url else url in
      "//" ++ netloc p ++ url
    else url in
  let url := if PyStr.truthy (scheme p) then scheme p ++ ":" ++ url else url in
  let url := if PyStr.truthy (query p) then url ++ "?" ++ query p else url in
  if PyStr.truthy (fragment p) then url ++ "#" ++ fragment p else url.

(** [del l[-1]] *)
Definition drop_last (l : list string) : list string := removelast l.

(** [segments[1:-1] = filter(None, segments[1:-1])] *)
Definition filter_middle (l : list string) : list string :=
  match l with
  | first :: (_ :: _) as rest =>
      first :: (List.filter PyStr.truthy (removelast rest) ++ [List.last rest ""])%list
  | _ => l
  end.

(** The loop that resolves [.] and [..]. *)
Definition resolve_step (resolved : list string) (seg : string) : list string :=
  if String.eqb seg ".." then removelast resolved
  else if String.eqb seg "." then resolved
  else (resolved ++ [seg])%list.

Definition urljoin (base url : string) : string :=
  if negb (PyStr.truthy base) then url
  else if negb (PyStr.truthy url) then base
  else
    let b := urlsplit base "" in
    let u := urlsplit url (scheme b) in
    if negb (String.eqb (scheme u) (scheme b)) || negb (mem (scheme u) uses_relative)
    then url
    else if mem (scheme u) uses_netloc && PyStr.truthy (netloc u)
    then urlunsplit u
    else
      let loc := if mem (scheme u) uses_netloc then netloc b else netloc u in
      if negb (PyStr.truthy (path u)) then
        urlunsplit (mk_parts (scheme u) loc (path b)
                             (if PyStr.truthy (query u) then query u else query b)
                             (fragment u))
      else
        let base_parts := PyStr.split_on "/" (path b) in
        let base_parts :=
          if negb (String.eqb (List.last base_parts "") "")
          then drop_last base_parts else base_parts in
        let segments :=
          if PyStr.startswith (path u) "/" then PyStr.split_on "/" (path u)
          else filter_middle (base_parts ++ PyStr.split_on "/" (path u))%list in
        let resolved := fold_left resolve_step segments [] in
        let resolved :=
          if mem (List.last segments "") ["."; ".."]
          then (resolved ++ [""])%list else resolved in
        let joined := PyStr.join "/" resolved in
        urlunsplit (mk_parts (scheme u) loc
                             (if PyStr.truthy joined then joined else "/")
                             (query u) (fragment u)).

End Url.

(* ===================================================================== *)
(** * Data model *)
(* ===================================================================== *)

(** The dictionaries of the program are records whose fields are the keys the
    code writes.  A field is [None] when the key is absent or holds Python's
    [None]; [d.get(k)] cannot tell the two apart. *)

(** One extracted article. *)
Record Article : Type := mk_article {
  title : option string;
  link : option string;
  date : option string;
  content_preview : option string;
  category : option string;
  source : option string
}.

#[export] Instance Article_eq_dec : EqDecision Article.
Proof. solve_decision. Defined.

(** One scraping result, also the JSON document persisted for it. *)
Record Snapshot : Type := mk_snapshot {
  competitor : option string;
  snap_source : option string;
  url : option string;
  timestamp : option string;
  articles : option (list Article);
  article_count : option nat;
  error : option string
}.

#[export] Instance Snapshot_eq_dec : EqDecision Snapshot.
Proof. solve_decision. Defined.

(** Truth value of a dictionary: it has a key. *)
Definition snapshot_truthy (d : Snapshot) : bool :=
  bool_decide (is_Some (competitor d)) || bool_decide (is_Some (snap_source d))
  || bool_decide (is_Some (url d)) || bool_decide (is_Some (timestamp d))
  || bool_decide (is_Some (articles d)) || bool_decide (is_Some (article_count d))
  || bool_decide (is_Some (error d)).

(** One entry of the [competitors] list of the configuration. *)
Record Competitor : Type := mk_competitor {
  name : option string;
  c_url : option string;
  selector : option Soup.css;
  title_selector : option Soup.css;
  date_selector : option Soup.css;
  content_selector : option Soup.css
}.

(** The configuration document. *)
Record Config : Type := mk_config {
  competitors : option (list Competitor);
  request_timeout : option nat;
  rate_limit_delay : option nat;
  user_agent : option string
}.

(** [d.get(k, default)] *)
Definition get_or {A : Type} (o : option A) (d : A) : A := default d o.

(* ===================================================================== *)
(** * Exceptions, results and effects *)
(* ===================================================================== *)

Module Py.

(** The subclasses of [requests.RequestException] a fetch can raise. *)
Inductive request_error : Type :=
| HTTPError | ConnectionError | Timeout | RetryError | MissingSchema.

Inductive exn : Type :=
| RequestException (kind : request_error) (msg : string)
| FileNotFoundError (msg : string)
| JSONDecodeError (msg : string)
| AttributeError (msg : string)
| KeyError (key : string)
| ValueError (msg : string)
| SelectorSyntaxError (msg : string)
| OSError (msg : string).

(** [str(e)] *)
Definition str (e : exn) : string :=
  match e with
  | RequestException _ msg => msg
  | FileNotFoundError msg => msg
  | JSONDecodeError msg => msg
  | AttributeError msg => msg
  | KeyError key => "'" ++ key ++ "'"
  | ValueError msg => msg
  | SelectorSyntaxError msg => msg
  | OSError msg => msg
  end.

Definition is_RequestException (e : exn) : bool :=
  match e with RequestException _ _ => true | _ => false end.

Definition is_FileNotFoundError (e : exn) : bool :=
  match e with FileNotFoundError _ => true | _ => false end.

(** [except Exception]: every exception of the model. *)
Definition is_Exception (e : exn) : bool := true.

Inductive result (A : Type) : Type :=
| Ok (a : A)
| Raise (e : exn).

Arguments Ok {A} a.
Arguments Raise {A} e.

Inductive level : Type := DEBUG | INFO | WARNING | ERROR.

(** What the program changes as it runs: the readings of the clock it has
    taken, the log, the files under [data/raw] and the pauses it made. *)
Record World : Type := mk_world {
  clock : nat;
  log : list (level * string);
  files : gmap string Snapshot;
  slept : list nat
}.

(** Sequencing of operations that return or raise. *)
#[export] Instance result_ret : MRet result := fun A a => Ok a.

#[export] Instance result_bind : MBind result := fun A B f r =>
  match r with
  | Ok a => f a
  | Raise e => Raise e
  end.

Definition M (A : Type) : Type := World -> result A * World.

#[export] Instance M_ret : MRet M := fun A a w => (Ok a, w).

#[export] Instance M_bind : MBind M := fun A B f m w =>
  match m w with
  | (Ok a, w') => f a w'
  | (Raise e, w') => (Raise e, w')
  end.

Definition raise {A : Type} (e : exn) : M A := fun w => (Raise e, w).

Definition lift {A : Type} (r : result A) : M A := fun w => (r, w).

(** [try: body  except E as e: handler e] *)
Definition try_except {A : Type} (body : M A) (E : exn -> bool) (handler : exn -> M A) : M A :=
  fun w =>
    match body w with
    | (Raise e, w') => if E e then handler e w' else (Raise e, w')
    | r => r
    end.

(** [logger.<lvl>(msg)]; the loggers are set to level INFO, which discards
    the DEBUG records. *)
Definition logger (lvl : level) (msg : string) : M unit := fun w =>
  match lvl with
  | DEBUG => (Ok tt, w)
  | _ => (Ok tt, mk_world (clock w) (log w ++ [(lvl, msg)]) (files w) (slept w))
  end.

(** [datetime.now()]: the next reading of the clock. *)
Definition datetime_now : M nat := fun w =>
  (Ok (clock w), mk_world (S (clock w)) (log w) (files w) (slept w)).

(** [with open(filename, 'w') as f: json.dump(d, f, indent=2, default=str)];
    [opened] is what the file system answers to the [open]: the file is
    written when it opens, and the exception of the [open] is raised, with
    nothing written, when it does not.  A snapshot holds strings, numbers,
    lists and [None], on which [json.dump] raises nothing of its own; an I/O
    error after the file has opened is not modelled. *)
Definition write_json (opened : result unit) (filename : string) (d : Snapshot) : M unit :=
  fun w =>
    match opened with
    | Ok _ => (Ok tt, mk_world (clock w) (log w) (<[filename := d]> (files w)) (slept w))
    | Raise e => (Raise e, w)
    end.

(** [time.sleep(seconds)] *)
Definition sleep (seconds : nat) : M unit := fun w =>
  (Ok tt, mk_world (clock w) (log w) (files w) (slept w ++ [seconds])).

(** An f-string field: [None] prints as [None]. *)
Definition fmt (o : option string) : string := default "None" o.

Definition empty_world : World := mk_world 0 [] ∅ [].

End Py.

Import Py.

(* ===================================================================== *)
(** * requests *)
(* ===================================================================== *)

Module Requests.

(** A response: its status, its reason phrase, whether it carries a
    [Retry-After] header, and its body. *)
Record Response : Type := mk_response {
  status_code : nat;
  reason : string;
  retry_after : bool;
  content : Soup.node
}.

(** What one attempt to reach the server gives. *)
Inductive attempt : Type :=
| Answer (r : Response)
| ConnectionFailed (msg : string)
| TimedOut (msg : string).

(** [urllib3.util.retry.Retry(total, status_forcelist)] *)
Record Retry : Type := mk_retry {
  total : nat;
  status_forcelist : list nat
}.

(** The default adapter of a session retries nothing. *)
Definition no_retry : Retry := mk_retry 0 [].

(** The statuses the adapter retries for their [Retry-After] header. *)
Definition RETRY_AFTER_STATUS_CODES : list nat := [413; 429; 503].

(** [Retry.is_retry]: the status is in the force list, or retries are left
    and the answer asks to be retried later. *)
Definition is_retry (budget : nat) (retry : Retry) (r : Response) : bool :=
  existsb (Nat.eqb (status_code r)) (status_forcelist retry)
  || (negb (Nat.eqb budget 0) && retry_after r
      && existsb (Nat.eqb (status_code r)) RETRY_AFTER_STATUS_CODES).

(** The adapter sends the request and sends it again after a failed
    connection, a timeout or an answer that [is_retry] selects, until the
    budget of retries is spent.  [server i] is the outcome of the [i]-th
    attempt. *)
Fixpoint send (budget : nat) (retry : Retry) (server : nat -> attempt) (i : nat)
  : result Response :=
  match server i with
  | Answer r =>
      if is_retry budget retry r then
        match budget with
        | 0 => Raise (RequestException RetryError "too many error responses")
        | S b => send b retry server (S i)
        end
      else Ok r
  | ConnectionFailed msg =>
      match budget with
      | 0 => Raise (RequestException ConnectionError msg)
      | S b => send b retry server (S i)
      end
  | TimedOut msg =>
      match budget with
      | 0 => Raise (RequestException Timeout msg)
      | S b => send b retry server (S i)
      end
  end.

(** [session.get(url, timeout=...)]; [None] is no URL at all.  The request is
    prepared, which rejects a missing URL, and sent, which rejects a timeout
    that is not positive with a [ValueError], not a [RequestException].  The
    call returns or raises and leaves the world as it is. *)
Definition get_result (http : string -> nat -> nat -> attempt) (retry : Retry)
    (url : option string) (timeout : nat) : result Response :=
  match url with
  | None => Raise (RequestException MissingSchema "Invalid URL 'None': No scheme supplied")
  | Some u =>
      if Nat.eqb timeout 0 then
        Raise (ValueError ("Attempted to set connect timeout to 0, but the timeout "
                           ++ "cannot be set to a value less than or equal to 0."))
      else send (total retry) retry (http u timeout) 0
  end.

Definition get (http : string -> nat -> nat -> attempt) (retry : Retry)
    (url : option string) (timeout : nat) : M Response :=
  lift (get_result http retry url timeout).

(** [response.raise_for_status()] *)
Definition status_check (url : option string) (r : Response) : result unit :=
  let code := status_code r in
  if Nat.leb 400 code && Nat.ltb code 500 then
    Raise (RequestException HTTPError
             (pretty code ++ " Client Error: " ++ reason r ++ " for url: " ++ fmt url))
  else if Nat.leb 500 code && Nat.ltb code 600 then
    Raise (RequestException HTTPError
             (pretty code ++ " Server Error: " ++ reason r ++ " for url: " ++ fmt url))
  else Ok tt.

Definition raise_for_status (url : option string) (r : Response) : M unit :=
  lift (status_check url r).

End Requests.

(* ===================================================================== *)
(** * scraper.py *)
(* ===================================================================== *)

Import Soup.

(** [content[:500] if content else None] *)
Definition excerpt (content : option string) : option string :=
  match content with
  | Some c => if PyStr.truthy c then Some (PyStr.take 500 c) else None
  | None => None
  end.

(** [if link and not link.startswith('http'): link = urljoin(base, link)] *)
Definition needs_join (link : option string) : bool :=
  match link with
  | Some l => PyStr.truthy l && negb (PyStr.startswith l "http")
  | None => false
  end.

Module CompetitorScraper.

(** The selector literals of the module. *)
Definition sel_article : css := [[SelTag "article"]].   (* 'article' *)
Definition sel_h2_h3 : css := [[SelTag "h2"]; [SelTag "h3"]]. (* 'h2, h3' *)
Definition sel_time : css := [[SelTag "time"]].         (* 'time' *)
Definition sel_p : css := [[SelTag "p"]].               (* 'p' *)
Definition sel_a : css := [[SelTag "a"]].               (* 'a' *)

Definition _get_default_config : Config :=
  {| competitors := Some
       [ {| name := Some "OpenAI";
            c_url := Some "https://openai.com/blog";
            selector := Some sel_article;
            title_selector := Some sel_h2_h3;
            date_selector := Some sel_time;
            content_selector := Some sel_p |} ];
     request_timeout := Some 30;
     rate_limit_delay := Some 2;
     user_agent := Some "AI-Competitor-Tracker/1.0" |}.

(** [Retry(total=3, read=3, connect=3, backoff_factor=0.3,
           status_forcelist=(500, 502, 504))] of [_create_session]. *)
Definition session_retry : Requests.Retry := Requests.mk_retry 3 [500; 502; 504].

(** [tag.select(sel)] and [tag.select_one(sel)] on a selector of the
    configuration, which may not parse. *)
Definition checked_select (sel : css) (n : node) : result (list node) :=
  if malformed sel then Raise (SelectorSyntaxError "Malformed selector")
  else Ok (select sel n).

Definition checked_select_one (sel : css) (n : node) : result (option node) :=
  if malformed sel then Raise (SelectorSyntaxError "Malformed selector")
  else Ok (select_one sel n).

(** [_extract_article_data]: the body of the [try]; [Raise] is an exception
    raised inside it. *)
Definition extract_article_body (article_element : node) (competitor : Competitor)
  : result (option Article) :=
  (* Extract title *)
  title_elem ← checked_select_one (get_or (title_selector competitor) sel_h2_h3)
                 article_element;
  let title := get_text_strip <$> title_elem in
  (* Extract date *)
  date_elem ← checked_select_one (get_or (date_selector competitor) sel_time)
                article_element;
  let date := (fun e => get_default e "datetime" (get_text_strip e)) <$> date_elem in
  (* Extract content preview *)
  content_elems ← checked_select (get_or (content_selector competitor) sel_p)
                    article_element;
  let content := PyStr.join " " (List.map get_text_strip (take 3 content_elems)) in
  (* Extract link *)
  let link_elem := select_one sel_a article_element in
  let link := link_elem ≫= fun e => get e "href" in
  let joined :=
    if needs_join link then
      match c_url competitor with
      | Some base => Ok (Url.urljoin base <$> link)
      | None => Raise (KeyError "url")
      end
    else Ok link in
  match joined with
  | Raise e => Raise e
  | Ok link =>
      match title with
      | Some t =>
          if PyStr.truthy t then  (* Only return if we at least have a title *)
            Ok (Some {| title := Some t;
                        date := date;
                        content_preview := excerpt (Some content);
                        link := link;
                        category := None;
                        source := None |})
          else Ok None
      | None => Ok None
      end
  end.

(** [except Exception] around the body: the exception is logged at DEBUG
    level, which the logger discards, and [None] is returned. *)
Definition _extract_article_data (article_element : node) (competitor : Competitor)
  : option Article :=
  match extract_article_body article_element competitor with
  | Ok r => r
  | Raise _ => None
  end.

Section Scraper.

(** The network: [http url timeout i] is the outcome of the [i]-th attempt. *)
Variable http : string -> nat -> nat -> Requests.attempt.
(** The renderings of a clock reading: [isoformat()] and
    [strftime('%Y%m%d_%H%M%S')]. *)
Variable isoformat : nat -> string.
Variable strftime : nat -> string.
(** The file system: [open(path, 'r').read()], [None] when the file is absent,
    and [json.load] on what was read. *)
Variable read_file : string -> option string.
Variable json_load : string -> result Config.
(** What [open(path, 'w')] answers: the file opens, or the exception it
    raises, such as [FileNotFoundError] when the directory of [path] does not
    exist. *)
Variable open_write : string -> result unit.

Definition open_read (path : string) : M string :=
  match read_file path with
  | Some text => mret text
  | None => raise (FileNotFoundError
                     ("[Errno 2] No such file or directory: '" ++ path ++ "'"))
  end.

Definition _load_config (config_path : string) : M Config :=
  try_except
    (text ← open_read config_path;
     lift (json_load text))
    is_FileNotFoundError
    (fun _ =>
       logger WARNING ("Config file " ++ config_path ++ " not found. Using defaults.");;
       mret _get_default_config).

(** The object [self]: its configuration (the session is fixed by
    [_create_session], the data directory is [data/raw]). *)
Record self_t : Type := mk_self { config : Config }.

Definition data_dir : string := "data/raw".

(** [str(self.data_dir / name)]: an absolute [name] replaces the directory;
    empty and [.] components of [name] are dropped. *)
Definition path_components (name : string) : list string :=
  List.filter (fun c => PyStr.truthy c && negb (String.eqb c ".")) (PyStr.split_on "/" name).

Definition path_root (name : string) : string :=
  if PyStr.startswith name "///" then "/"
  else if PyStr.startswith name "//" then "//"
  else if PyStr.startswith name "/" then "/"
  else "".

Definition data_path (name : string) : string :=
  if PyStr.startswith name "/"
  then path_root name ++ PyStr.join "/" (path_components name)
  else PyStr.join "/" (path_components data_dir ++ path_components name)%list.

Definition __init__ (config_path : string) : M self_t :=
  cfg ← _load_config config_path;
  mret (mk_self cfg).

Definition scrape_website (self : self_t) (competitor : Competitor) : M Snapshot :=
  let name := name competitor in
  let url := c_url competitor in
  logger INFO ("Scraping " ++ fmt name ++ ": " ++ fmt url);;
  try_except
    (response ← Requests.get http session_retry url
                  (get_or (request_timeout (config self)) 30);
     Requests.raise_for_status url response;;
     let soup := Requests.content response in
     (* Extract articles/posts *)
     article_elements ← lift (checked_select (get_or (selector competitor) sel_article) soup);
     let articles :=
       omap (fun article => _extract_article_data article competitor)
            (take 10 article_elements) in
     now ← datetime_now;
     let result :=
       {| competitor := name;
          snap_source := None;
          url := url;
          timestamp := Some (isoformat now);
          articles := Some articles;
          article_count := Some (List.length articles);
          error := None |} in
     logger INFO ("Successfully scraped " ++ pretty (List.length articles)
                  ++ " articles from " ++ fmt name);;
     mret result)
    is_RequestException
    (fun e =>
       logger ERROR ("Error scraping " ++ fmt name ++ ": " ++ str e);;
       now ← datetime_now;
       mret {| competitor := name;
               snap_source := None;
               url := url;
               timestamp := Some (isoformat now);
               error := Some (str e);
               articles := Some [];
               article_count := None |}).

Definition _save_result (self : self_t) (result : Snapshot) : M unit :=
  now ← datetime_now;
  let timestamp := strftime now in
  match competitor result with
  | None => raise (AttributeError "'NoneType' object has no attribute 'replace'")
  | Some c =>
      let competitor_name := PyStr.replace_char " " "_" c in
      let filename := data_path (competitor_name ++ "_" ++ timestamp ++ ".json") in
      write_json (open_write filename) filename result;;
      logger INFO ("Saved result to " ++ filename)
  end.

(** The loop of [scrape_all], [results] being the list built so far. *)
Fixpoint scrape_all_loop (self : self_t) (todo : list Competitor) (results : list Snapshot)
  : M (list Snapshot) :=
  match todo with
  | [] => mret results
  | competitor :: rest =>
      result ← scrape_website self competitor;
      if snapshot_truthy result then
        let results := (results ++ [result])%list in
        (* Save individual result *)
        _save_result self result;;
        (* Rate limiting *)
        sleep (get_or (rate_limit_delay (config self)) 2);;
        scrape_all_loop self rest results
      else scrape_all_loop self rest results
  end.

Definition scrape_all (self : self_t) : M (list Snapshot) :=
  scrape_all_loop self (get_or (competitors (config self)) []) [].

End Scraper.

End CompetitorScraper.

(* ===================================================================== *)
(** * google_scraper.py *)
(* ===================================================================== *)

Module GoogleAIScraper.

(** [self.base_urls] *)
Definition base_url_google_ai_blog : string := "https://blog.google/technology/ai/".
Definition base_url_deepmind : string := "https://deepmind.google/discover/blog/".
Definition base_url_google_research : string := "https://research.google/blog/".

(** A selector literal of the source, with the selector it denotes. *)
Definition tag_sel (t : string) : string * css := (t, [[SelTag t]]).

Definition class_contains (v : string) : compound := [SelAttrContains "class" v].

(** [article_selectors] of [scrape_google_ai_blog]; the literals are written
    without the quotes around the attribute values. *)
Definition google_article_selectors : list (string * css) :=
  [ tag_sel "article";
    ("div.glue-grid__col", [[SelTag "div"; SelClass "glue-grid__col"]]);
    ("div[class*=article]", [[SelTag "div"; SelAttrContains "class" "article"]]);
    ("div[class*=post]", [[SelTag "div"; SelAttrContains "class" "post"]]);
    ("div.uni-article-card", [[SelTag "div"; SelClass "uni-article-card"]]);
    ("a[href*=/technology/ai/]", [[SelTag "a"; SelAttrContains "href" "/technology/ai/"]]) ].

(** [article_selectors] of [scrape_deepmind] *)
Definition deepmind_article_selectors : list css :=
  [ [[SelTag "article"]];
    [[SelTag "div"; SelAttrContains "class" "post"]];
    [[SelTag "div"; SelAttrContains "class" "blog"]];
    [[SelTag "a"; SelAttrContains "href" "/blog/"]] ].

(** ['h2', 'h3', 'h4', '.headline', '[class*="title"]', 'a'] *)
Definition title_selectors : list css :=
  [ [[SelTag "h2"]]; [[SelTag "h3"]]; [[SelTag "h4"]]; [[SelClass "headline"]];
    [class_contains "title"]; [[SelTag "a"]] ].

(** ['time', '[datetime]', '[class*="date"]', '[class*="time"]'] *)
Definition date_selectors : list css :=
  [ [[SelTag "time"]]; [[SelAttr "datetime"]]; [class_contains "date"];
    [class_contains "time"] ].

(** ['p', '[class*="excerpt"]', '[class*="summary"]', '[class*="description"]'] *)
Definition content_selectors : list css :=
  [ [[SelTag "p"]]; [class_contains "excerpt"]; [class_contains "summary"];
    [class_contains "description"] ].

Definition sel_a_href : css := [[SelTag "a"; SelAttr "href"]].          (* 'a[href]' *)
Definition sel_category : css := [class_contains "category"; class_contains "tag"].
Definition sel_deepmind_title : css :=          (* 'h2, h3, a[href*="/blog/"]' *)
  [[SelTag "h2"]; [SelTag "h3"]; [SelTag "a"; SelAttrContains "href" "/blog/"]].
Definition sel_time_date : css := [[SelTag "time"]; class_contains "date"]. (* 'time, [class*="date"]' *)
Definition sel_p_summary : css := [[SelTag "p"]; class_contains "summary"]. (* 'p, [class*="summary"]' *)
Definition sel_p : css := [[SelTag "p"]].

(** The title loop of [_extract_google_article]; [title] is the variable the
    loop assigns. *)
Fixpoint title_loop (element : node) (selectors : list css) (title : option string)
  : option string :=
  match selectors with
  | [] => title
  | selector :: rest =>
      match select_one selector element with
      | Some title_elem =>
          let title := get_text_strip title_elem in
          if PyStr.truthy title && Nat.ltb 10 (String.length title)
          then Some title  (* break *)
          else title_loop element rest (Some title)
      | None => title_loop element rest title
      end
  end.

(** [x or y] on strings *)
Definition or_else (x : option string) (y : string) : string :=
  match x with
  | Some v => if PyStr.truthy v then v else y
  | None => y
  end.

(** The date loop: the first selector that matches decides. *)
Fixpoint date_loop (element : node) (selectors : list css) : option string :=
  match selectors with
  | [] => None
  | selector :: rest =>
      match select_one selector element with
      | Some date_elem => Some (or_else (get date_elem "datetime") (get_text_strip date_elem))
      | None => date_loop element rest
      end
  end.

(** The content loop; [content] is the variable the loop assigns. *)
Fixpoint content_loop (element : node) (selectors : list css) (content : option string)
  : option string :=
  match selectors with
  | [] => content
  | selector :: rest =>
      match select_one selector element with
      | Some content_elem =>
          let content := get_text_strip content_elem in
          if PyStr.truthy content then Some content  (* break *)
          else content_loop element rest (Some content)
      | None => content_loop element rest content
      end
  end.

(** [not title] *)
Definition falsy (o : option string) : bool :=
  match o with
  | Some s => negb (PyStr.truthy s)
  | None => true
  end.

(** The link of the first ['a[href]'], joined to the base when it does not
    start with [http]. *)
Definition extract_link (element : node) (base_url : string) : option string :=
  match select_one sel_a_href element with
  | Some link_elem =>
      let link := get link_elem "href" in
      if needs_join link then Url.urljoin base_url <$> link else link
  | None => None
  end.

(** No operation of the body raises on a tree: the function returns what the
    [try] block returns. *)
Definition _extract_google_article (element : node) (base_url : string) : option Article :=
  (* Try multiple ways to extract title *)
  let title := title_loop element title_selectors None in
  if falsy title then None
  else
    (* Extract link *)
    let link := extract_link element base_url in
    (* Extract date *)
    let date := date_loop element date_selectors in
    (* Extract content preview *)
    let content := content_loop element content_selectors None in
    (* Extract category/tags *)
    let category := get_text_strip <$> select_one sel_category element in
    Some {| title := title;
            link := link;
            date := date;
            content_preview := excerpt content;
            category := category;
            source := Some "Google AI Blog" |}.

Definition _extract_deepmind_article (element : node) (base_url : string) : option Article :=
  let title_elem := select_one sel_deepmind_title element in
  let title := get_text_strip <$> title_elem in
  if falsy title || Nat.ltb (String.length (default "" title)) 10 then None
  else
    let link_elem := select_one sel_a_href element in
    let link := link_elem ≫= fun e => get e "href" in
    let link := if needs_join link then Url.urljoin base_url <$> link else link in
    let date_elem := select_one sel_time_date element in
    let date := get_text_strip <$> date_elem in
    let content_elem := select_one sel_p_summary element in
    let content := get_text_strip <$> content_elem in
    Some {| title := title;
            link := link;
            date := date;
            content_preview := excerpt content;
            category := None;
            source := Some "DeepMind" |}.

(** [link_element] comes with its [.parent]. *)
Definition _extract_from_link (parent link_element : node) (base_url : string)
  : option Article :=
  let title := get_text_strip link_element in
  if negb (PyStr.truthy title) || Nat.ltb (String.length title) 10 then None
  else
    let href := get link_element "href" in
    let href := if needs_join href then Url.urljoin base_url <$> href else href in
    (* Try to find parent element for more context *)
    let content := get_text_strip <$> select_one sel_p parent in
    let date := get_text_strip <$> select_one sel_time_date parent in
    Some {| title := Some title;
            link := href;
            date := date;
            content_preview := excerpt content;
            category := None;
            source := Some "Google AI" |}.

(** The loop of [_remove_duplicates]: [seen] and [unique] are its variables. *)
Fixpoint remove_duplicates_loop (articles : list Article)
    (seen : gset (option string)) (unique : list Article) : list Article :=
  match articles with
  | [] => unique
  | article :: rest =>
      if bool_decide (title article ∉ seen)
      then remove_duplicates_loop rest ({[title article]} ∪ seen) (unique ++ [article])%list
      else remove_duplicates_loop rest seen unique
  end.

Definition _remove_duplicates (articles : list Article) : list Article :=
  remove_duplicates_loop articles ∅ [].

(** [if article_data and article_data not in articles: articles.append(...)] *)
Definition append_new (articles : list Article) (article_data : option Article)
  : list Article :=
  match article_data with
  | Some a => if bool_decide (a ∉ articles) then (articles ++ [a])%list else articles
  | None => articles
  end.

Section Scraper.

Variable http : string -> nat -> nat -> Requests.attempt.
Variable isoformat : nat -> string.

(** The selector pass of [scrape_google_ai_blog]. *)
Fixpoint google_selector_loop (soup : node) (url : string)
    (selectors : list (string * css)) (articles : list Article) : M (list Article) :=
  match selectors with
  | [] => mret articles
  | (literal, selector) :: rest =>
      let elements := select selector soup in
      match elements with
      | [] => google_selector_loop soup url rest articles
      | _ =>
          logger INFO ("Found " ++ pretty (List.length elements)
                       ++ " elements with selector: " ++ literal);;
          google_selector_loop soup url rest
            (fold_left (fun acc element => append_new acc (_extract_google_article element url))
                       (take 15 elements) articles)
      end
  end.

Definition scrape_google_ai_blog : M Snapshot :=
  let url := base_url_google_ai_blog in
  logger INFO ("Scraping Google AI Blog: " ++ url);;
  try_except
    (response ← Requests.get http Requests.no_retry (Some url) 30;
     Requests.raise_for_status (Some url) response;;
     let soup := Requests.content response in
     (* Multiple possible article selectors for Google's blog *)
     articles ← google_selector_loop soup url google_article_selectors [];
     (* Also try to find articles by looking for links *)
     let articles :=
       if Nat.ltb (List.length articles) 5 then
         let links := find_all_a_href "/technology/ai/" soup in
         fold_left (fun acc pl => append_new acc (_extract_from_link pl.1 pl.2 url))
                   (take 10 links) articles
       else articles in
     (* Remove duplicates based on title *)
     let unique_articles := remove_duplicates_loop articles ∅ [] in
     now ← datetime_now;
     let result :=
       {| competitor := Some "Google AI";
          snap_source := Some "Google AI Blog";
          url := Some url;
          timestamp := Some (isoformat now);
          articles := Some (take 10 unique_articles);  (* Limit to 10 most relevant *)
          article_count := Some (List.length unique_articles);
          error := None |} in
     logger INFO ("Successfully scraped " ++ pretty (List.length unique_articles)
                  ++ " unique articles from Google AI Blog");;
     mret result)
    is_Exception
    (fun e =>
       logger ERROR ("Error scraping Google AI Blog: " ++ str e);;
       now ← datetime_now;
       mret {| competitor := Some "Google AI";
               snap_source := Some "Google AI Blog";
               url := Some url;
               timestamp := Some (isoformat now);
               error := Some (str e);
               articles := Some [];
               article_count := None |}).

Definition scrape_deepmind : M Snapshot :=
  let url := base_url_deepmind in
  logger INFO ("Scraping DeepMind: " ++ url);;
  try_except
    (response ← Requests.get http Requests.no_retry (Some url) 30;
     Requests.raise_for_status (Some url) response;;
     let soup := Requests.content response in
     (* DeepMind specific selectors *)
     let articles :=
       flat_map (fun selector =>
                   omap (fun element => _extract_deepmind_article element url)
                        (take 10 (select selector soup)))
                deepmind_article_selectors in
     (* Remove duplicates *)
     let unique_articles := _remove_duplicates articles in
     now ← datetime_now;
     let result :=
       {| competitor := Some "Google AI";
          snap_source := Some "DeepMind";
          url := Some url;
          timestamp := Some (isoformat now);
          articles := Some (take 10 unique_articles);
          article_count := Some (List.length unique_articles);
          error := None |} in
     logger INFO ("Successfully scraped " ++ pretty (List.length unique_articles)
                  ++ " articles from DeepMind");;
     mret result)
    is_Exception
    (fun e =>
       logger ERROR ("Error scraping DeepMind: " ++ str e);;
       now ← datetime_now;
       mret {| competitor := Some "Google AI";
               snap_source := Some "DeepMind";
               url := Some url;
               timestamp := Some (isoformat now);
               error := Some (str e);
               articles := Some [];
               article_count := None |}).

Definition scrape_all_google_sources : M (list Snapshot) :=
  (* Scrape Google AI Blog *)
  google_ai_result ← scrape_google_ai_blog;
  let results := if snapshot_truthy google_ai_result then [google_ai_result] else [] in
  (* Scrape DeepMind *)
  deepmind_result ← scrape_deepmind;
  let results := if snapshot_truthy deepmind_result
                 then (results ++ [deepmind_result])%list else results in
  mret results.

End Scraper.

End GoogleAIScraper.

(* ===================================================================== *)
(** * utils.py *)
(* ===================================================================== *)

Module Utils.

(** [text[:k]] for an index that may be negative. *)
Definition slice_to (text : string) (k : Z) : string :=
  if (0 <=? k)%Z then PyStr.take (Z.to_nat k) text
  else PyStr.take (Z.to_nat (Z.of_nat (String.length text) + k)) text.

(** Truncate text to specified length with ellipsis. *)
Definition truncate_text (text : string) (max_length : Z) : string :=
  if negb (PyStr.truthy text) then ""
  else if (Z.of_nat (String.length text) <=? max_length)%Z then text
  else slice_to text (max_length - 3) ++ "...".

(** The dictionary [merge_competitor_data] returns. *)
Record Merged : Type := mk_merged {
  m_articles : list Article;
  timestamps : list (option string);
  errors : list string
}.

(** The first loop of [merge_competitor_data]. *)
Definition collect (merged : Merged) (data : Snapshot) : Merged :=
  {| m_articles := (m_articles merged ++ get_or (articles data) [])%list;
     timestamps := (timestamps merged ++ [timestamp data])%list;
     errors := match error data with
               | Some e => (errors merged ++ [e])%list
               | None => errors merged
               end |}.

(** [title and title not in seen_titles] *)
Definition fresh_title (t : option string) (seen_titles : gset string) : option string :=
  match t with
  | Some s => if PyStr.truthy s && bool_decide (s ∉ seen_titles) then Some s else None
  | None => None
  end.

(** The second loop: [seen_titles] and [unique_articles] are its variables. *)
Fixpoint unique_loop (articles : list Article) (seen_titles : gset string)
    (unique_articles : list Article) : list Article :=
  match articles with
  | [] => unique_articles
  | article :: rest =>
      match fresh_title (title article) seen_titles with
      | Some t => unique_loop rest ({[t]} ∪ seen_titles) (unique_articles ++ [article])%list
      | None => unique_loop rest seen_titles unique_articles
      end
  end.

Definition merge_competitor_data (data_list : list Snapshot) : Merged :=
  let merged := fold_left collect data_list (mk_merged [] [] []) in
  (* Remove duplicate articles based on title *)
  let unique_articles := unique_loop (m_articles merged) ∅ [] in
  {| m_articles := unique_articles;
     timestamps := timestamps merged;
     errors := errors merged |}.

(** The value of [stats['competitors'][c]]. *)
Record CompetitorStats : Type := mk_cstats {
  file_count : nat;
  article_count : nat;
  error_count : nat
}.

Record DateRange : Type := mk_range {
  start : option string;
  end_ : option string
}.

Record Stats : Type := mk_stats {
  total_files : nat;
  total_articles : nat;
  competitors : gmap string CompetitorStats;
  date_range : DateRange
}.

(** [not s] for the bounds of the range. *)
Definition unset (s : option string) : bool :=
  match s with
  | Some v => negb (PyStr.truthy v)
  | None => true
  end.

(** [a < b] on strings: code point by code point. *)
Definition str_lt (a b : string) : bool := String.ltb a b.

Definition update_range (r : DateRange) (ts : option string) : DateRange :=
  match ts with
  | Some t =>
      if PyStr.truthy t then
        let s := if unset (start r) || str_lt t (default "" (start r))
                 then Some t else start r in
        let e := if unset (end_ r) || str_lt (default "" (end_ r)) t
                 then Some t else end_ r in
        mk_range s e
      else r
  | None => r
  end.

(** The body of the loop of [calculate_statistics] for one loaded file. *)
Definition update_stats (stats : Stats) (loaded : option Snapshot) : Stats :=
  match loaded with
  | Some data =>
      if snapshot_truthy data then
        let competitor := get_or (competitor data) "Unknown" in
        let articles := get_or (articles data) [] in
        let cs := competitors stats in
        let cs := if bool_decide (competitor ∉ dom cs)
                  then <[competitor := mk_cstats 0 0 0]> cs else cs in
        let cs := alter (fun c => mk_cstats (file_count c + 1) (article_count c) (error_count c))
                        competitor cs in
        let cs := alter (fun c => mk_cstats (file_count c)
                                            (article_count c + List.length articles)
                                            (error_count c))
                        competitor cs in
        let cs := if bool_decide (is_Some (error data))
                  then alter (fun c => mk_cstats (file_count c) (article_count c)
                                                 (error_count c + 1))
                             competitor cs
                  else cs in
        {| total_files := total_files stats;
           total_articles := total_articles stats + List.length articles;
           competitors := cs;
           (* Update date range *)
           date_range := update_range (date_range stats) (timestamp data) |}
      else stats
  | None => stats
  end.

Section Files.

(** The file system: the JSON files [glob] lists in a directory, what
    [open(path).read()] gives and what [json.load] makes of it. *)
Variable glob_json : string -> list string.
Variable read_file : string -> option string.
Variable json_load : string -> result Snapshot.

(** Safely load JSON file: every exception is logged and gives [None]. *)
Definition load_json_file (filepath : string) : M (option Snapshot) :=
  try_except
    (match read_file filepath with
     | Some text => data ← lift (json_load text); mret (Some data)
     | None => raise (FileNotFoundError
                        ("[Errno 2] No such file or directory: '" ++ filepath ++ "'"))
     end)
    is_Exception
    (fun e =>
       logger ERROR ("Error loading JSON file " ++ filepath ++ ": " ++ str e);;
       mret None).

Fixpoint calculate_loop (json_files : list string) (stats : Stats) : M Stats :=
  match json_files with
  | [] => mret stats
  | file :: rest =>
      data ← load_json_file file;
      calculate_loop rest (update_stats stats data)
  end.

Definition calculate_statistics (data_dir : string) : M Stats :=
  let json_files := glob_json data_dir in
  calculate_loop json_files
    {| total_files := List.length json_files;
       total_articles := 0;
       competitors := ∅;
       date_range := mk_range None None |}.

End Files.

End Utils.

(* ===================================================================== *)
(** * Reference definitions *)
(* ===================================================================== *)

(** What deduplication is meant to compute, stated once for both loops: the
    records whose key is new, in the order of the input.  A record with no key
    is dropped. *)
Section FirstOccurrences.

Context {K : Type} {K_eq : EqDecision K} {K_countable : Countable K}.
Variable key : Article -> option K.

Fixpoint first_occurrences (seen : gset K) (l : list Article) : list Article :=
  match l with
  | [] => []
  | a :: r =>
      match key a with
      | Some k =>
          if bool_decide (k ∉ seen) then a :: first_occurrences ({[k]} ∪ seen) r
          else first_occurrences seen r
      | None => first_occurrences seen r
      end
  end.

(** The record [a] carries the key [k]. *)
Definition has_key (k : K) (a : Article) : bool := bool_decide (key a = Some k).

End FirstOccurrences.

(** The key of [_remove_duplicates]: the title, whatever it is. *)
Definition exact_title (a : Article) : option (option string) := Some (title a).

(** The key of [merge_competitor_data]: the title when it is a non-empty
    string. *)
Definition nonempty_title (a : Article) : option string :=
  match title a with
  | Some s => if PyStr.truthy s then Some s else None
  | None => None
  end.

(** The element a fallback chain settles on: the match of the first selector
    that has one. *)
Fixpoint first_match (element : node) (selectors : list css) : option node :=
  match selectors with
  | [] => None
  | s :: r =>
      match select_one s element with
      | Some e => Some e
      | None => first_match element r
      end
  end.

(** The [href] of the first anchor below [element] that has one. *)
Definition is_anchor_with_href (n : node) : bool :=
  match n with
  | Elem t attrs _ => String.eqb t "a" && bool_decide (is_Some (assoc "href" attrs))
  | Text _ => false
  end.

Definition first_href (element : node) : option string :=
  List.find is_anchor_with_href (descendants element) ≫= fun e => get e "href".

(** A reference is relative when it has no scheme. *)
Definition is_relative (href : string) : bool :=
  negb (PyStr.truthy (Url.scheme (Url.urlsplit href ""))).

(** What the routines do with an [href]: it is joined to the base unless it is
    empty or begins with [http]. *)
Definition resolve (base href : string) : string :=
  if PyStr.truthy href && negb (PyStr.startswith href "http")
  then Url.urljoin base href else href.

(** ** Fetching *)

(** The fetch of [scrape_website]: [session.get] with the retrying session,
    then [raise_for_status]. *)
Definition fetch (http : string -> nat -> nat -> Requests.attempt)
    (self : CompetitorScraper.self_t) (competitor : Competitor)
  : result Requests.Response :=
  match Requests.get_result http CompetitorScraper.session_retry (c_url competitor)
          (get_or (request_timeout (CompetitorScraper.config self)) 30) with
  | Ok response =>
      match Requests.status_check (c_url competitor) response with
      | Ok _ => Ok response
      | Raise e => Raise e
      end
  | Raise e => Raise e
  end.

(** The fetch of the Google scrapers: the plain session, a fixed timeout. *)
Definition fetch_plain (http : string -> nat -> nat -> Requests.attempt) (url : string)
  : result Requests.Response :=
  match Requests.get_result http Requests.no_retry (Some url) 30 with
  | Ok response =>
      match Requests.status_check (Some url) response with
      | Ok _ => Ok response
      | Raise e => Raise e
      end
  | Raise e => Raise e
  end.

(** The articles [scrape_website] extracts from a page. *)
Definition scraped_articles (competitor : Competitor) (soup : node) : list Article :=
  omap (fun article => CompetitorScraper._extract_article_data article competitor)
       (take 10 (select (get_or (selector competitor) CompetitorScraper.sel_article) soup)).

(** The snapshot [scrape_website] builds from the outcome of the fetch, at
    the clock reading [now]. *)
Definition snapshot_of_fetch (isoformat : nat -> string) (competitor : Competitor)
    (now : nat) (outcome : result Requests.Response) : Snapshot :=
  match outcome with
  | Ok response =>
      let found := scraped_articles competitor (Requests.content response) in
      {| competitor := name competitor;
         snap_source := None;
         url := c_url competitor;
         timestamp := Some (isoformat now);
         articles := Some found;
         article_count := Some (List.length found);
         error := None |}
  | Raise e =>
      {| competitor := name competitor;
         snap_source := None;
         url := c_url competitor;
         timestamp := Some (isoformat now);
         articles := Some [];
         article_count := None;
         error := Some (str e) |}
  end.


(** The titles of a list of records, each counted once. *)
Definition distinct_titles (l : list Article) : gset (option string) :=
  list_to_set (title <$> l).

(** The candidate records [scrape_google_ai_blog] collects from a page, before
    deduplication: the selector pass, which takes the first 15 matches of
    each selector and keeps a record that is not in the list yet, then, when
    fewer than 5 records were found, the first 10 links to [/technology/ai/]. *)
Fixpoint google_selector_pass (soup : node) (selectors : list (string * css))
    (articles : list Article) : list Article :=
  match selectors with
  | [] => articles
  | (_, selector) :: rest =>
      google_selector_pass soup rest
        (fold_left (fun acc element =>
                      GoogleAIScraper.append_new acc
                        (GoogleAIScraper._extract_google_article element
                           GoogleAIScraper.base_url_google_ai_blog))
                   (take 15 (select selector soup)) articles)
  end.

Definition google_candidates (soup : node) : list Article :=
  let articles := google_selector_pass soup GoogleAIScraper.google_article_selectors [] in
  if Nat.ltb (List.length articles) 5 then
    fold_left (fun acc pl =>
                 GoogleAIScraper.append_new acc
                   (GoogleAIScraper._extract_from_link pl.1 pl.2
                      GoogleAIScraper.base_url_google_ai_blog))
              (take 10 (find_all_a_href "/technology/ai/" soup)) articles
  else articles.

(** The candidate records [scrape_deepmind] collects from a page, before
    deduplication. *)
Definition deepmind_candidates (soup : node) : list Article :=
  flat_map (fun selector =>
              omap (fun element =>
                      GoogleAIScraper._extract_deepmind_article element
                        GoogleAIScraper.base_url_deepmind)
                   (take 10 (select selector soup)))
           GoogleAIScraper.deepmind_article_selectors.






(** ** Aggregation *)

(** The source a snapshot counts for, its record count, whether it carries a
    fetch error. *)
Definition source_of (d : Snapshot) : string := get_or (competitor d) "Unknown".
Definition record_count (d : Snapshot) : nat := List.length (get_or (articles d) []).
Definition has_error (d : Snapshot) : bool := bool_decide (is_Some (error d)).

(** The entry of a source after one more snapshot. *)
Definition bump (d : Snapshot) (c : Utils.CompetitorStats) : Utils.CompetitorStats :=
  Utils.mk_cstats (Utils.file_count c + 1)
                  (Utils.article_count c + record_count d)
                  (Utils.error_count c + (if has_error d then 1 else 0)).

(** What [load_json_file] returns for a file. *)
Definition loaded_file (read_file : string -> option string)
    (json_load : string -> result Snapshot) (file : string) : option Snapshot :=
  match read_file file with
  | Some text =>
      match json_load text with
      | Ok d => Some d
      | Raise _ => None
      end
  | None => None
  end.

(** The snapshots the aggregation counts: those that were loaded and are not
    the empty dictionary. *)
Definition counted (loaded : list (option Snapshot)) : list Snapshot :=
  omap (fun o => o ≫= fun d => if snapshot_truthy d then Some d else None) loaded.

Definition of_source (c : string) (docs : list Snapshot) : list Snapshot :=
  List.filter (fun d => String.eqb (source_of d) c) docs.

(** The statistics of one source: the number of its snapshots, the sum of
    their record counts, the number of them that carry an error. *)
Definition per_source (c : string) (docs : list Snapshot) : option Utils.CompetitorStats :=
  let ds := of_source c docs in
  match ds with
  | [] => None
  | _ :: _ => Some (Utils.mk_cstats (List.length ds)
                                    (sum_list (record_count <$> ds))
                                    (List.length (List.filter has_error ds)))
  end.

(** The capture timestamps the range is computed from. *)
Definition capture_times (docs : list Snapshot) : list string :=
  omap (fun d => timestamp d ≫= fun t => if PyStr.truthy t then Some t else None) docs.

(** [o] is the least (greatest) of [ts] in the lexical order of strings, and
    is absent when there is none. *)
Definition lexical_min (o : option string) (ts : list string) : Prop :=
  match o with
  | None => ts = []
  | Some t => t ∈ ts /\ forall t', t' ∈ ts -> String.ltb t' t = false
  end.

Definition lexical_max (o : option string) (ts : list string) : Prop :=
  match o with
  | None => ts = []
  | Some t => t ∈ ts /\ forall t', t' ∈ ts -> String.ltb t t' = false
  end.

(** The articles of a list of snapshots, in order. *)
Definition all_articles (data_list : list Snapshot) : list Article :=
  flat_map (fun data => get_or (articles data) []) data_list.

(** A snapshot that carries the given articles and nothing else. *)
Definition snapshot_of (l : list Article) : Snapshot :=
  mk_snapshot None None None None (Some l) None None.

(* ===================================================================== *)
(** * Sample pages *)
(* ===================================================================== *)

(** Containers and pages on which the statements below are exercised. *)
Module Sample.

Definition h2 (t : string) : node := Elem "h2" [] [Text t].
Definition p (t : string) : node := Elem "p" [] [Text t].
Definition a_href (href t : string) : node := Elem "a" [("href", href)] [Text t].

(** An article whose paragraph is 600 characters long. *)
Definition long_article : node :=
  Elem "article" []
    [ h2 "AI Breakthrough in Reasoning";
      p (PyStr.repeat "x" 600) ].

(** A container whose date element has a [datetime] attribute and a visible
    text. *)
Definition dated_article : node :=
  Elem "article" []
    [ h2 "AI Breakthrough in Reasoning";
      a_href "/x" "Read more";
      Elem "time" [("datetime", "2024-01-01")] [Text "January 1, 2024"] ].

(** A container whose only title candidate is a navigation label. *)
Definition short_title_container : node := Elem "div" [] [h2 "Home"].

(** A container whose only title candidate has exactly 10 characters. *)
Definition ten_char_container : node := Elem "div" [] [h2 "GPT-5 News"].

(** A container whose link is the relative reference [/blog/x]. *)
Definition blog_x_container : node :=
  Elem "article" []
    [ h2 "AI Breakthrough in Reasoning";
      a_href "/blog/x" "Read more" ].

(** A container whose link is a relative reference that begins with the
    letters [http]. *)
Definition http2_container : node :=
  Elem "article" []
    [ h2 "HTTP/2 explained for crawlers";
      a_href "http2-explained/" "Read more" ].

(** Two snapshots of OpenAI, with 4 and 6 records and no error. *)
Definition numbered (i : nat) : Article :=
  mk_article (Some ("Article number " ++ pretty i)) None None None None None.

Definition openai_snapshot (stamp : string) (n : nat) : Snapshot :=
  {| competitor := Some "OpenAI";
     snap_source := None;
     url := Some "https://openai.com/blog";
     timestamp := Some stamp;
     articles := Some (numbered <$> seq 0 n);
     article_count := Some n;
     error := None |}.

(** A data directory with the two snapshots: a file is read as its own name
    and decoded to the snapshot it stands for. *)
Definition sample_glob (dir : string) : list string :=
  [dir ++ "/OpenAI_20240101_090000.json"; dir ++ "/OpenAI_20240102_090000.json"].

Definition sample_read (path : string) : option string := Some path.

Definition sample_json_load (text : string) : result Snapshot :=
  if String.eqb text "data/raw/OpenAI_20240101_090000.json"
  then Ok (openai_snapshot "2024-01-01T09:00:00.000000" 4)
  else if String.eqb text "data/raw/OpenAI_20240102_090000.json"
  then Ok (openai_snapshot "2024-01-02T09:00:00.000000" 6)
  else Raise (JSONDecodeError "Expecting value: line 1 column 1 (char 0)").

(** A server that answers every request with 503, and a configuration with
    two competitors. *)
Definition unavailable : Requests.Response :=
  Requests.mk_response 503 "Service Unavailable" false (Elem "[document]" [] []).

Definition http_503 (url : string) (timeout attempt : nat) : Requests.attempt :=
  Requests.Answer unavailable.

Definition two_competitors : CompetitorScraper.self_t :=
  CompetitorScraper.mk_self
    {| competitors := Some
         [ mk_competitor (Some "OpenAI") (Some "https://openai.com/blog") None None None None;
           mk_competitor (Some "Anthropic") (Some "https://www.anthropic.com/news")
                         None None None None ];
       request_timeout := Some 30;
       rate_limit_delay := Some 2;
       user_agent := None |}.

Definition sample_isoformat (n : nat) : string := "2024-01-01T09:00:0" ++ pretty n.
Definition sample_strftime (n : nat) : string := "20240101_09000" ++ pretty n.

(** A page of twelve posts with distinct titles, six of them [article]
    elements and six of them [div.post] elements, and a server that serves
    it. *)
Definition post (tag : string) (attrs : list (string * string)) (i : nat) : node :=
  Elem tag attrs [h2 ("Article number " ++ pretty i)].

Definition twelve_posts : node :=
  Elem "[document]" []
    ((post "article" [] <$> seq 0 6) ++ (post "div" [("class", "post")] <$> seq 6 6))%list.

Definition http_twelve (url : string) (timeout attempt : nat) : Requests.attempt :=
  Requests.Answer (Requests.mk_response 200 "OK" false twelve_posts).

(** The file system [__init__] sets up on a fresh tree: the directory
    [data/raw] exists and has no subdirectory, so that a file opens for
    writing when it lies in [data/raw] itself. *)
Definition fresh_data_raw (path : string) : result unit :=
  if PyStr.startswith path "data/raw/" && negb (PyStr.contains "/" (PyStr.drop 9 path))
  then Ok tt
  else Raise (FileNotFoundError ("[Errno 2] No such file or directory: '" ++ path ++ "'")).





End Sample.

(* ===================================================================== *)
(** * Facts about strings *)
(* ===================================================================== *)

Lemma PyStr_append_cons c a b : String c a ++ b = String c (a ++ b).
Proof. reflexivity. Qed.

Lemma PyStr_length_take n s : String.length (PyStr.take n s) = Nat.min n (String.length s).
Proof.
  revert s; induction n as [|n IH]; intros [|c s]; simpl; auto.
Qed.

Lemma PyStr_take_drop n s : PyStr.take n s ++ PyStr.drop n s = s.
Proof.
  revert s; induction n as [|n IH]; intros [|c s]; simpl; auto.
  rewrite PyStr_append_cons. f_equal. apply IH.
Qed.

Lemma PyStr_take_all n s : String.length s <= n -> PyStr.take n s = s.
Proof.
  revert s; induction n as [|n IH]; intros [|c s]; simpl; auto; try lia.
  intros H. f_equal. apply IH. lia.
Qed.

Lemma PyStr_truthy_false s : PyStr.truthy s = false <-> s = "".
Proof. destruct s; simpl; split; congruence. Qed.

Lemma PyStr_truthy_true s : PyStr.truthy s = true <-> s <> "".
Proof. destruct s; simpl; split; congruence. Qed.

Lemma PyStr_truthy_length s : PyStr.truthy s = true <-> 0 < String.length s.
Proof. destruct s; simpl; split; (congruence || lia). Qed.

(** [urljoin] on the standard cases. *)
Example urljoin_absolute_path :
  Url.urljoin "https://example.com" "/blog/x" = "https://example.com/blog/x".
Proof. vm_compute. reflexivity. Qed.

Example urljoin_relative_path :
  Url.urljoin "https://deepmind.google/discover/blog/" "alphafold/" =
  "https://deepmind.google/discover/blog/alphafold/".
Proof. vm_compute. reflexivity. Qed.

Example urljoin_dot_segments :
  Url.urljoin "http://a/b/c/d" "../g" = "http://a/b/g".
Proof. vm_compute. reflexivity. Qed.

Example urljoin_other_scheme :
  Url.urljoin "https://example.com/blog" "mailto:press@example.com" = "mailto:press@example.com".
Proof. vm_compute. reflexivity. Qed.

Example urljoin_network_path :
  Url.urljoin "https://example.com/blog" "//cdn.example.com/x" = "https://cdn.example.com/x".
Proof. vm_compute. reflexivity. Qed.

(* ===================================================================== *)
(** * Deduplication *)
(* ===================================================================== *)

Section FirstOccurrencesFacts.

Context {K : Type} {K_eq : EqDecision K} {K_countable : Countable K}.
Variable key : Article -> option K.

Lemma first_occurrences_sublist seen l :
  first_occurrences key seen l `sublist_of` l.
Proof.
  revert seen; induction l as [|a r IH]; intros seen; simpl; [constructor|].
  destruct (key a) as [k|]; [case_bool_decide|]; try (constructor; apply IH).
Qed.

Lemma first_occurrences_key seen l a :
  a ∈ first_occurrences key seen l -> exists k, key a = Some k /\ k ∉ seen.
Proof.
  revert seen; induction l as [|b r IH]; intros seen; simpl.
  - intros Hin; inversion Hin.
  - destruct (key b) as [k|] eqn:Hk; [case_bool_decide as Hs|]; try apply IH.
    intros [->|Hin]%elem_of_cons; [eauto|].
    destruct (IH _ Hin) as (k' & Hk' & Hn). exists k'. split; [done|set_solver].
Qed.

Lemma first_occurrences_fixed seen seen' l :
  seen ⊆ seen' ->
  first_occurrences key seen (first_occurrences key seen' l) = first_occurrences key seen' l.
Proof.
  revert seen seen'; induction l as [|a r IH]; intros seen seen' Hsub; simpl; [done|].
  destruct (key a) as [k|] eqn:Hk; [case_bool_decide as Hs|]; try by apply IH.
  simpl. rewrite Hk. rewrite bool_decide_true by set_solver.
  f_equal. apply IH. by apply union_mono_l.
Qed.

Lemma first_occurrences_seen seen l k :
  k ∈ seen -> List.filter (has_key key k) (first_occurrences key seen l) = [].
Proof.
  revert seen; induction l as [|a r IH]; intros seen Hin; simpl; [done|].
  destruct (key a) as [k'|] eqn:Hk; [case_bool_decide as Hs|]; try by apply IH.
  simpl. unfold has_key at 1. rewrite Hk.
  rewrite bool_decide_false by (intros [= ->]; done).
  apply IH. set_solver.
Qed.

Lemma first_occurrences_first seen l k :
  k ∉ seen ->
  List.filter (has_key key k) (first_occurrences key seen l) =
  option_list (List.find (has_key key k) l).
Proof.
  revert seen; induction l as [|a r IH]; intros seen Hout; simpl; [done|].
  unfold has_key at 2. destruct (key a) as [k'|] eqn:Hk.
  - destruct (decide (k' = k)) as [->|Hne].
    + rewrite (bool_decide_true (k ∉ seen)) by done.
      rewrite (bool_decide_true (Some k = Some k)) by done. simpl.
      unfold has_key at 1. rewrite Hk, bool_decide_true by done.
      f_equal. apply first_occurrences_seen.
      by apply elem_of_union_l, elem_of_singleton.
    + rewrite (bool_decide_false (Some k' = Some k)) by congruence.
      case_bool_decide as Hs.
      * simpl. unfold has_key at 1. rewrite Hk.
        rewrite bool_decide_false by congruence. apply IH.
        intros [Hin%elem_of_singleton|Hin]%elem_of_union; [congruence|done].
      * by apply IH.
  - rewrite bool_decide_false by done. by apply IH.
Qed.

End FirstOccurrencesFacts.

(** The two loops compute the first occurrences for their keys. *)
Lemma remove_duplicates_loop_spec articles seen unique :
  GoogleAIScraper.remove_duplicates_loop articles seen unique =
  (unique ++ first_occurrences exact_title seen articles)%list.
Proof.
  revert seen unique; induction articles as [|a r IH]; intros seen unique; simpl.
  - by rewrite app_nil_r.
  - case_bool_decide; rewrite IH; [by rewrite <- app_assoc|done].
Qed.

Lemma _remove_duplicates_spec articles :
  GoogleAIScraper._remove_duplicates articles = first_occurrences exact_title ∅ articles.
Proof. unfold GoogleAIScraper._remove_duplicates. by rewrite remove_duplicates_loop_spec. Qed.

Lemma unique_loop_spec articles seen unique :
  Utils.unique_loop articles seen unique =
  (unique ++ first_occurrences nonempty_title seen articles)%list.
Proof.
  revert seen unique; induction articles as [|a r IH]; intros seen unique; simpl.
  - by rewrite app_nil_r.
  - unfold Utils.fresh_title, nonempty_title.
    destruct (title a) as [s|]; [|by rewrite IH].
    destruct (PyStr.truthy s); simpl; [|by rewrite IH].
    case_bool_decide; rewrite IH; [by rewrite <- app_assoc|done].
Qed.

Lemma collect_articles data_list merged :
  Utils.m_articles (fold_left Utils.collect data_list merged) =
  (Utils.m_articles merged ++ all_articles data_list)%list.
Proof.
  revert merged; induction data_list as [|d r IH]; intros merged; simpl.
  - by rewrite app_nil_r.
  - rewrite IH. simpl. by rewrite <- app_assoc.
Qed.

Lemma merge_competitor_data_spec data_list :
  Utils.m_articles (Utils.merge_competitor_data data_list) =
  first_occurrences nonempty_title ∅ (all_articles data_list).
Proof.
  unfold Utils.merge_competitor_data; simpl.
  by rewrite unique_loop_spec, collect_articles.
Qed.

Lemma all_articles_snapshot_of l : all_articles [snapshot_of l] = l.
Proof. unfold all_articles; simpl. by rewrite app_nil_r. Qed.

Lemma has_key_exact_title t a :
  has_key exact_title (title a) t = bool_decide (title t = title a).
Proof.
  unfold has_key, exact_title. apply bool_decide_ext. split; congruence.
Qed.

Lemma find_ext {A : Type} (f g : A -> bool) (l : list A) :
  (forall a, f a = g a) -> List.find f l = List.find g l.
Proof.
  intros Hfg; induction l as [|a r IH]; simpl; [done|].
  rewrite Hfg, IH. done.
Qed.

Lemma has_key_nonempty_title t a :
  t <> "" -> has_key nonempty_title t a = bool_decide (title a = Some t).
Proof.
  intros Ht. unfold has_key, nonempty_title. apply bool_decide_ext.
  destruct (title a) as [s|]; [|done].
  destruct (PyStr.truthy s) eqn:Hs; [done|].
  destruct s; [|discriminate]. split; [done|congruence].
Qed.

(** C1.  Deduplication by title, in [_remove_duplicates] and in
    [merge_competitor_data], is idempotent, keeps the order of the input, and
    for every title keeps exactly the first record that bears it, unchanged,
    dropping the later ones.  Titles are compared exactly; in
    [merge_competitor_data] the titles in question are the non-empty ones an
    article record has. *)
Theorem dedupe_idempotent_first_occurrence_wins :
  (forall R : list Article,
      GoogleAIScraper._remove_duplicates (GoogleAIScraper._remove_duplicates R)
      = GoogleAIScraper._remove_duplicates R) /\
  (forall R : list Article, GoogleAIScraper._remove_duplicates R `sublist_of` R) /\
  (forall (R : list Article) (t : option string) (a : Article),
      List.find (fun x => bool_decide (title x = t)) R = Some a ->
      List.filter (fun x => bool_decide (title x = t))
                  (GoogleAIScraper._remove_duplicates R) = [a]) /\
  (forall D : list Snapshot,
      Utils.m_articles
        (Utils.merge_competitor_data
           [snapshot_of (Utils.m_articles (Utils.merge_competitor_data D))])
      = Utils.m_articles (Utils.merge_competitor_data D)) /\
  (forall D : list Snapshot,
      Utils.m_articles (Utils.merge_competitor_data D) `sublist_of` all_articles D) /\
  (forall (D : list Snapshot) (t : string) (a : Article),
      t <> "" ->
      List.find (fun x => bool_decide (title x = Some t)) (all_articles D) = Some a ->
      List.filter (fun x => bool_decide (title x = Some t))
                  (Utils.m_articles (Utils.merge_competitor_data D)) = [a]).
Proof.
  repeat split.
  - intros R. rewrite !_remove_duplicates_spec. by apply first_occurrences_fixed.
  - intros R. rewrite _remove_duplicates_spec. apply first_occurrences_sublist.
  - intros R t a Hfind. rewrite _remove_duplicates_spec.
    assert (Hext : forall x, bool_decide (title x = t) = has_key exact_title t x).
    { intros x. unfold has_key, exact_title. apply bool_decide_ext. split; congruence. }
    rewrite (List.filter_ext _ _ Hext), (find_ext _ _ R Hext) in *.
    rewrite first_occurrences_first by set_solver. by rewrite Hfind.
  - intros D. rewrite !merge_competitor_data_spec, all_articles_snapshot_of.
    by apply first_occurrences_fixed.
  - intros D. rewrite merge_competitor_data_spec. apply first_occurrences_sublist.
  - intros D t a Ht Hfind. rewrite merge_competitor_data_spec.
    assert (Hext : forall x, bool_decide (title x = Some t) = has_key nonempty_title t x).
    { intros x. by rewrite has_key_nonempty_title. }
    rewrite (List.filter_ext _ _ Hext), (find_ext _ _ _ Hext) in *.
    rewrite first_occurrences_first by set_solver. by rewrite Hfind.
Qed.

(** Two records share a title and differ in their link: the first is kept. *)
Lemma dedupe_first_occurrence_witness :
  let a1 := mk_article (Some "Introducing Gemini") (Some "https://blog.google/a") None None None None in
  let a2 := mk_article (Some "Introducing Gemini") (Some "https://blog.google/b") None None None None in
  let b := mk_article (Some "Research update") None None None None None in
  List.filter (fun x => bool_decide (title x = Some "Introducing Gemini"))
              (GoogleAIScraper._remove_duplicates [a1; b; a2]) = [a1] /\
  List.filter (fun x => bool_decide (title x = Some "Introducing Gemini"))
              (Utils.m_articles (Utils.merge_competitor_data [snapshot_of [a1; b]; snapshot_of [a2]]))
  = [a1].
Proof.
  intros a1 a2 b.
  destruct dedupe_idempotent_first_occurrence_wins as (_ & _ & Hfirst & _ & _ & Hmerge).
  split.
  - apply Hfirst. reflexivity.
  - apply Hmerge; [discriminate | reflexivity].
Defined.

Lemma nonempty_title_Some a t :
  nonempty_title a = Some t -> title a = Some t /\ t <> "".
Proof.
  unfold nonempty_title. destruct (title a) as [s|]; [|done].
  destruct (PyStr.truthy s) eqn:Hs; [|done].
  intros [= ->]. split; [done|]. by apply PyStr_truthy_true.
Qed.

(** C9.  Every article [merge_competitor_data] returns has a title that is
    present and not empty; an input article whose title is missing or empty
    is not in the output, duplicate or not. *)
Theorem merge_competitor_data_titles_nonempty (data_list : list Snapshot) :
  Forall (fun a => exists t, title a = Some t /\ t <> "")
         (Utils.m_articles (Utils.merge_competitor_data data_list)) /\
  (forall a : Article,
      a ∈ all_articles data_list ->
      title a = None \/ title a = Some "" ->
      a ∉ Utils.m_articles (Utils.merge_competitor_data data_list)).
Proof.
  assert (Hall : forall a, a ∈ Utils.m_articles (Utils.merge_competitor_data data_list) ->
                           exists t, title a = Some t /\ t <> "").
  { intros a. rewrite merge_competitor_data_spec. intros Hin.
    destruct (first_occurrences_key _ _ _ _ Hin) as (k & Hk & _).
    exists k. by apply nonempty_title_Some. }
  split.
  - apply Forall_forall. exact Hall.
  - intros a _ Hempty Hin. destruct (Hall a Hin) as (t & Ht & Hne).
    destruct Hempty as [Hnone|Hsome]; congruence.
Qed.

(** An article with an empty title, the only one of its kind, is dropped. *)
Lemma merge_competitor_data_titles_witness :
  let untitled := mk_article (Some "") (Some "https://openai.com/blog/x") None None None None in
  let titled := mk_article (Some "Sora is here") None None None None None in
  untitled ∉ Utils.m_articles (Utils.merge_competitor_data [snapshot_of [untitled; titled]]).
Proof.
  intros untitled titled.
  apply (merge_competitor_data_titles_nonempty [snapshot_of [untitled; titled]]).
  - apply list_elem_of_In. simpl. by left.
  - by right.
Defined.

(* ===================================================================== *)
(** * Excerpts *)
(* ===================================================================== *)

Lemma excerpt_take content :
  content <> "" -> excerpt (Some content) = Some (PyStr.take 500 content).
Proof. intros H%PyStr_truthy_true. unfold excerpt. by rewrite H. Qed.

Lemma excerpt_prefix content p :
  excerpt content = Some p ->
  exists c, content = Some c /\ p = PyStr.take 500 c /\ c = p ++ PyStr.drop 500 c
            /\ String.length p = Nat.min 500 (String.length c).
Proof.
  unfold excerpt. destruct content as [c|]; [|done].
  destruct (PyStr.truthy c); [|done]. intros Heq. apply (inj Some) in Heq. subst p.
  exists c. by rewrite PyStr_take_drop, PyStr_length_take.
Qed.

(** A record of [_extract_article_data] comes from selectors that parse: on
    one that does not, the exception is caught and no record is returned. *)
Ltac unfold_extract_article_data :=
  unfold CompetitorScraper._extract_article_data, CompetitorScraper.extract_article_body,
         CompetitorScraper.checked_select_one, CompetitorScraper.checked_select,
         mbind, result_bind;
  repeat (destruct (malformed _); cbn beta iota; [intros; discriminate|]).

(** What each routine stores as [content_preview]. *)
Lemma _extract_article_data_content element competitor a :
  CompetitorScraper._extract_article_data element competitor = Some a ->
  content_preview a =
  excerpt (Some (PyStr.join " "
                   (List.map get_text_strip
                      (take 3 (select (get_or (content_selector competitor)
                                              CompetitorScraper.sel_p) element))))).
Proof.
  unfold_extract_article_data.
  destruct (needs_join _); [destruct (c_url competitor)|]; try done;
    (destruct (get_text_strip <$> _) as [t|]; [|done]);
    (destruct (PyStr.truthy t); [|done]); by intros [= <-].
Qed.

Lemma _extract_google_article_content element base_url a :
  GoogleAIScraper._extract_google_article element base_url = Some a ->
  content_preview a =
  excerpt (GoogleAIScraper.content_loop element GoogleAIScraper.content_selectors None).
Proof.
  unfold GoogleAIScraper._extract_google_article.
  destruct (GoogleAIScraper.falsy _); [done|]. by intros [= <-].
Qed.

Lemma _extract_deepmind_article_content element base_url a :
  GoogleAIScraper._extract_deepmind_article element base_url = Some a ->
  content_preview a =
  excerpt (get_text_strip <$> select_one GoogleAIScraper.sel_p_summary element).
Proof.
  unfold GoogleAIScraper._extract_deepmind_article.
  destruct (_ || _); [done|]. by intros [= <-].
Qed.

Lemma _extract_from_link_content parent link_element base_url a :
  GoogleAIScraper._extract_from_link parent link_element base_url = Some a ->
  content_preview a =
  excerpt (get_text_strip <$> select_one GoogleAIScraper.sel_p parent).
Proof.
  unfold GoogleAIScraper._extract_from_link.
  destruct (_ || _); [done|]. by intros [= <-].
Qed.

(** The helper of the presentation stage does add the marker: it is not what
    the extraction routines apply. *)
Lemma truncate_text_ellipsis text :
  500 < String.length text ->
  Utils.truncate_text text 500 = PyStr.take 497 text ++ "...".
Proof.
  intros Hlen. unfold Utils.truncate_text.
  assert (Ht : PyStr.truthy text = true) by (apply PyStr_truthy_length; lia).
  rewrite Ht. simpl negb. cbv iota.
  destruct (Z.leb_spec (Z.of_nat (String.length text)) 500); [lia|].
  reflexivity.
Qed.

(** C3.  A content text of 600 units is stored as its first 500 units: the
    excerpt has length 500, it is a prefix of the text, and nothing is
    appended to it.  This holds in each extraction routine. *)
Theorem excerpt_600_is_first_500 (content : string) :
  String.length content = 600 ->
  let stored := PyStr.take 500 content in
  String.length stored = 500 /\
  content = stored ++ PyStr.drop 500 content /\
  excerpt (Some content) = Some stored /\
  (forall element competitor a,
      CompetitorScraper._extract_article_data element competitor = Some a ->
      PyStr.join " "
        (List.map get_text_strip
           (take 3 (select (get_or (content_selector competitor) CompetitorScraper.sel_p)
                           element))) = content ->
      content_preview a = Some stored) /\
  (forall element base_url a,
      GoogleAIScraper._extract_google_article element base_url = Some a ->
      GoogleAIScraper.content_loop element GoogleAIScraper.content_selectors None
      = Some content ->
      content_preview a = Some stored) /\
  (forall element base_url a,
      GoogleAIScraper._extract_deepmind_article element base_url = Some a ->
      get_text_strip <$> select_one GoogleAIScraper.sel_p_summary element = Some content ->
      content_preview a = Some stored) /\
  (forall parent link_element base_url a,
      GoogleAIScraper._extract_from_link parent link_element base_url = Some a ->
      get_text_strip <$> select_one GoogleAIScraper.sel_p parent = Some content ->
      content_preview a = Some stored).
Proof.
  intros Hlen stored.
  assert (Hne : content <> "") by (intros ->; discriminate).
  assert (Hex : excerpt (Some content) = Some stored) by by apply excerpt_take.
  split; [|split; [|split; [|split; [|split; [|split]]]]].
  - unfold stored. rewrite PyStr_length_take, Hlen. reflexivity.
  - unfold stored. by rewrite PyStr_take_drop.
  - exact Hex.
  - intros element competitor a Ha Hc.
    by rewrite (_extract_article_data_content _ _ _ Ha), Hc.
  - intros element base_url a Ha Hc.
    by rewrite (_extract_google_article_content _ _ _ Ha), Hc.
  - intros element base_url a Ha Hc.
    by rewrite (_extract_deepmind_article_content _ _ _ Ha), Hc.
  - intros parent link_element base_url a Ha Hc.
    by rewrite (_extract_from_link_content _ _ _ _ Ha), Hc.
Qed.

(** An article with a paragraph of 600 characters: the stored excerpt has
    500. *)
Lemma excerpt_600_witness :
  exists a,
    GoogleAIScraper._extract_deepmind_article Sample.long_article
      GoogleAIScraper.base_url_deepmind = Some a /\
    content_preview a = Some (PyStr.repeat "x" 500).
Proof.
  eexists. split; [vm_compute; reflexivity|].
  pose proof (excerpt_600_is_first_500 (PyStr.repeat "x" 600) eq_refl) as H.
  destruct H as (_ & _ & _ & _ & _ & Hdeepmind & _).
  exact (Hdeepmind Sample.long_article GoogleAIScraper.base_url_deepmind _ eq_refl eq_refl).
Defined.

(* ===================================================================== *)
(** * Dates *)
(* ===================================================================== *)

(** [_extract_article_data] stores the [datetime] attribute of the matched
    date element whenever the element has one. *)
Lemma _extract_article_data_date element competitor a e v :
  CompetitorScraper._extract_article_data element competitor = Some a ->
  select_one (get_or (date_selector competitor) CompetitorScraper.sel_time) element = Some e ->
  get e "datetime" = Some v ->
  date a = Some v.
Proof.
  unfold_extract_article_data.
  intros Ha He Hv. rewrite He in Ha. simpl in Ha.
  unfold get_default in Ha. rewrite Hv in Ha.
  destruct (needs_join _); [destruct (c_url competitor)|]; try done;
    (destruct (get_text_strip <$> _) as [t|]; [|done]);
    (destruct (PyStr.truthy t); [|done]); by injection Ha as <-.
Qed.

(** The element the date loop of [_extract_google_article] settles on. *)
Lemma date_loop_first_match element selectors :
  GoogleAIScraper.date_loop element selectors =
  (fun e => GoogleAIScraper.or_else (get e "datetime") (get_text_strip e))
    <$> first_match element selectors.
Proof.
  induction selectors as [|s r IH]; simpl; [done|].
  destruct (select_one s element); [done|]. apply IH.
Qed.

(** [_extract_google_article] stores the [datetime] attribute of the matched
    date element whenever the element has a non-empty one. *)
Lemma _extract_google_article_date element base_url a e v :
  GoogleAIScraper._extract_google_article element base_url = Some a ->
  first_match element GoogleAIScraper.date_selectors = Some e ->
  get e "datetime" = Some v -> v <> "" ->
  date a = Some v.
Proof.
  unfold GoogleAIScraper._extract_google_article.
  intros Ha He Hv Hne%PyStr_truthy_true.
  destruct (GoogleAIScraper.falsy _); [done|].
  apply (inj Some) in Ha. subst a. cbn [date].
  rewrite date_loop_first_match, He. cbn [fmap option_fmap option_map].
  unfold GoogleAIScraper.or_else. by rewrite Hv, Hne.
Qed.

(** [_extract_deepmind_article] and [_extract_from_link] store the visible
    text of the date element and never look at its attributes. *)
Lemma _extract_deepmind_article_date element base_url a :
  GoogleAIScraper._extract_deepmind_article element base_url = Some a ->
  date a = get_text_strip <$> select_one GoogleAIScraper.sel_time_date element.
Proof.
  unfold GoogleAIScraper._extract_deepmind_article.
  destruct (_ || _); [done|]. by intros [= <-].
Qed.

Lemma _extract_from_link_date parent link_element base_url a :
  GoogleAIScraper._extract_from_link parent link_element base_url = Some a ->
  date a = get_text_strip <$> select_one GoogleAIScraper.sel_time_date parent.
Proof.
  unfold GoogleAIScraper._extract_from_link.
  destruct (_ || _); [done|]. by intros [= <-].
Qed.

(** C4.  On a container with [<time datetime="2024-01-01">January 1,
    2024</time>], [_extract_article_data] and [_extract_google_article] store
    the attribute, ["2024-01-01"]; [_extract_deepmind_article] stores the
    visible text, ["January 1, 2024"]. *)
Theorem deepmind_date_is_visible_text :
  let base := "https://example.com" in
  let competitor := mk_competitor (Some "Example") (Some base) None None None None in
  (date <$> CompetitorScraper._extract_article_data Sample.dated_article competitor)
    = Some (Some "2024-01-01") /\
  (date <$> GoogleAIScraper._extract_google_article Sample.dated_article base)
    = Some (Some "2024-01-01") /\
  (date <$> GoogleAIScraper._extract_deepmind_article Sample.dated_article base)
    = Some (Some "January 1, 2024").
Proof. vm_compute. done. Qed.

(* ===================================================================== *)
(** * Titles *)
(* ===================================================================== *)


(** A record of [_extract_deepmind_article] has a title of at least 10
    characters. *)
Lemma _extract_deepmind_article_title element base_url a :
  GoogleAIScraper._extract_deepmind_article element base_url = Some a ->
  exists t, title a = Some t /\ 10 <= String.length t.
Proof.
  unfold GoogleAIScraper._extract_deepmind_article.
  destruct (get_text_strip <$> _) as [t|]; [|done]. cbn [default].
  destruct (GoogleAIScraper.falsy (Some t)); [done|]. cbn [orb].
  unfold id. destruct (Nat.ltb_spec (String.length t) 10); [done|].
  intros Ha. apply (inj Some) in Ha. subst a. by exists t.
Qed.

(** A record of [_extract_google_article] has a non-empty title; the length
    test of the loop only decides where the loop stops. *)
Lemma _extract_google_article_title element base_url a :
  GoogleAIScraper._extract_google_article element base_url = Some a ->
  exists t, title a = Some t /\ t <> "".
Proof.
  unfold GoogleAIScraper._extract_google_article.
  destruct (GoogleAIScraper.title_loop _ _ _) as [t|]; [|done].
  unfold GoogleAIScraper.falsy. destruct (PyStr.truthy t) eqn:Ht; [|done].
  intros Ha. apply (inj Some) in Ha. subst a. exists t.
  split; [done|by apply PyStr_truthy_true].
Qed.

(** C5.  The container [<div><h2>Home</h2></div>], whose only title candidate
    has 4 characters, gives a record in [_extract_google_article]: the loop
    leaves the rejected text in [title].  A title of exactly 10 characters
    gives a record in [_extract_deepmind_article]. *)
Theorem short_title_container_gives_record :
  (title <$> GoogleAIScraper._extract_google_article Sample.short_title_container
               GoogleAIScraper.base_url_google_ai_blog) = Some (Some "Home") /\
  (title <$> GoogleAIScraper._extract_deepmind_article Sample.ten_char_container
               GoogleAIScraper.base_url_deepmind) = Some (Some "GPT-5 News") /\
  String.length "GPT-5 News" = 10.
Proof. vm_compute. done. Qed.

(* ===================================================================== *)
(** * Links *)
(* ===================================================================== *)

Lemma head_filter_find {A : Type} (f : A -> bool) (l : list A) :
  head (List.filter f l) = List.find f l.
Proof.
  induction l as [|x r IH]; simpl; [done|]. by destruct (f x).
Qed.

Lemma find_stronger {A : Type} (f g : A -> bool) (l : list A) (e : A) :
  (forall x, g x = true -> f x = true) ->
  List.find f l = Some e -> g e = true -> List.find g l = Some e.
Proof.
  intros Hgf. induction l as [|x r IH]; simpl; [done|].
  destruct (f x) eqn:Hf.
  - intros [= ->] Hg. by rewrite Hg.
  - intros Hfind Hg. destruct (g x) eqn:Hgx; [|by apply IH].
    apply Hgf in Hgx. congruence.
Qed.

Lemma matches_sel_a_href n :
  matches GoogleAIScraper.sel_a_href n = is_anchor_with_href n.
Proof.
  destruct n as [s|t attrs cs]; [done|].
  unfold matches, GoogleAIScraper.sel_a_href, is_anchor_with_href; simpl.
  destruct (String.eqb t "a"); simpl; [|done].
  by destruct (assoc "href" attrs).
Qed.

(** ['a[href]'] selects the first anchor that has an [href]. *)
Lemma select_one_a_href element :
  select_one GoogleAIScraper.sel_a_href element ≫= (fun e => get e "href")
  = first_href element.
Proof.
  unfold select_one, select, first_href.
  rewrite head_filter_find.
  by rewrite (find_ext _ _ _ matches_sel_a_href).
Qed.

Lemma needs_join_resolve base (link : option string) :
  (if needs_join link then Url.urljoin base <$> link else link) = resolve base <$> link.
Proof.
  destruct link as [l|]; [|done]. unfold needs_join, resolve; simpl.
  by destruct (PyStr.truthy l && negb (PyStr.startswith l "http")).
Qed.

Lemma _extract_google_article_link element base_url a :
  GoogleAIScraper._extract_google_article element base_url = Some a ->
  link a = resolve base_url <$> first_href element.
Proof.
  unfold GoogleAIScraper._extract_google_article.
  destruct (GoogleAIScraper.falsy _); [done|].
  intros Ha. apply (inj Some) in Ha. subst a. cbn [link].
  unfold GoogleAIScraper.extract_link. rewrite <- select_one_a_href.
  destruct (select_one GoogleAIScraper.sel_a_href element) as [e|]; [|done].
  cbn [mbind option_bind]. apply needs_join_resolve.
Qed.

Lemma _extract_deepmind_article_link element base_url a :
  GoogleAIScraper._extract_deepmind_article element base_url = Some a ->
  link a = resolve base_url <$> first_href element.
Proof.
  unfold GoogleAIScraper._extract_deepmind_article.
  destruct (_ || _); [done|].
  intros Ha. apply (inj Some) in Ha. subst a. cbn [link].
  rewrite select_one_a_href. apply needs_join_resolve.
Qed.

Lemma first_anchor_with_href element e href :
  select_one CompetitorScraper.sel_a element = Some e ->
  get e "href" = Some href ->
  first_href element = Some href.
Proof.
  unfold select_one, select, first_href. rewrite head_filter_find.
  intros Hfind Hhref.
  rewrite (find_stronger _ is_anchor_with_href _ e) with (2 := Hfind).
  - exact Hhref.
  - intros [s|t attrs cs]; [done|].
    unfold is_anchor_with_href, matches, CompetitorScraper.sel_a; simpl.
    by destruct (String.eqb t "a").
  - apply find_some in Hfind as [_ Hm].
    destruct e as [s|t attrs cs]; [done|].
    unfold is_anchor_with_href, matches, CompetitorScraper.sel_a in *; simpl in *.
    destruct (String.eqb t "a"); [|done]. simpl.
    by rewrite Hhref.
Qed.

Lemma _extract_article_data_link element competitor base a e href :
  CompetitorScraper._extract_article_data element competitor = Some a ->
  c_url competitor = Some base ->
  select_one CompetitorScraper.sel_a element = Some e ->
  get e "href" = Some href ->
  link a = Some (resolve base href).
Proof.
  unfold_extract_article_data.
  intros Ha Hbase He Hhref. rewrite He, Hbase in Ha. cbn [mbind option_bind] in Ha.
  rewrite Hhref in Ha.
  unfold resolve. unfold needs_join in Ha.
  destruct (PyStr.truthy href && negb (PyStr.startswith href "http"));
    (destruct (get_text_strip <$> _) as [t|]; [|done]);
    (destruct (PyStr.truthy t); [|done]);
    apply (inj Some) in Ha; by subst a.
Qed.

(** C6, as stated, fails.  The container's only anchor has the relative
    reference [http2-explained/]; against [https://example.com] it resolves to
    [https://example.com/http2-explained/], and the record keeps it
    unresolved because it begins with [http]. *)
Lemma relative_href_left_unresolved :
  let base := "https://example.com" in
  let href := "http2-explained/" in
  first_href Sample.http2_container = Some href /\
  is_relative href = true /\
  Url.urljoin base href = "https://example.com/http2-explained/" /\
  (link <$> GoogleAIScraper._extract_google_article Sample.http2_container base)
    = Some (Some href) /\
  (link <$> GoogleAIScraper._extract_google_article Sample.http2_container base)
    <> Some (Some (Url.urljoin base href)).
Proof. vm_compute. repeat split; done. Qed.

(** C6, amended.  [_extract_google_article] and [_extract_deepmind_article]
    take the [href] of the first anchor that has one, and so does
    [_extract_article_data] when the first anchor of the container has one; an
    [href] that is not empty and does not begin with [http] is replaced by
    [urljoin(base, href)], any other is stored as it is.  [/blog/x] on
    [https://example.com] gives [https://example.com/blog/x]. *)
Theorem link_is_first_href_joined_unless_http :
  (forall element base_url a,
      GoogleAIScraper._extract_google_article element base_url = Some a ->
      link a = resolve base_url <$> first_href element) /\
  (forall element base_url a,
      GoogleAIScraper._extract_deepmind_article element base_url = Some a ->
      link a = resolve base_url <$> first_href element) /\
  (forall element competitor base a e href,
      CompetitorScraper._extract_article_data element competitor = Some a ->
      c_url competitor = Some base ->
      select_one CompetitorScraper.sel_a element = Some e ->
      get e "href" = Some href ->
      first_href element = Some href /\ link a = Some (resolve base href)) /\
  (forall base href,
      href <> "" -> PyStr.startswith href "http" = false ->
      resolve base href = Url.urljoin base href) /\
  (forall base href,
      href = "" \/ PyStr.startswith href "http" = true ->
      resolve base href = href) /\
  resolve "https://example.com" "/blog/x" = "https://example.com/blog/x".
Proof.
  split; [|split; [|split; [|split; [|split]]]].
  - exact _extract_google_article_link.
  - exact _extract_deepmind_article_link.
  - intros element competitor base a e href Ha Hbase He Hhref. split.
    + by eapply first_anchor_with_href.
    + by eapply _extract_article_data_link.
  - intros base href Hne%PyStr_truthy_true Hhttp. unfold resolve.
    by rewrite Hne, Hhttp.
  - intros base href [->|Hhttp]; unfold resolve; [done|].
    rewrite Hhttp. by rewrite andb_false_r.
  - vm_compute. reflexivity.
Qed.

(** The container with the link [/blog/x], in each routine. *)
Lemma link_blog_x_witness :
  let base := "https://example.com" in
  let competitor := mk_competitor (Some "Example") (Some base) None None None None in
  (link <$> GoogleAIScraper._extract_google_article Sample.blog_x_container base)
    = Some (Some "https://example.com/blog/x") /\
  (link <$> GoogleAIScraper._extract_deepmind_article Sample.blog_x_container base)
    = Some (Some "https://example.com/blog/x") /\
  (link <$> CompetitorScraper._extract_article_data Sample.blog_x_container competitor)
    = Some (Some "https://example.com/blog/x").
Proof.
  intros base competitor.
  destruct link_is_first_href_joined_unless_http as (Hg & Hd & Hc & Hjoin & _ & _).
  split; [|split].
  - destruct (GoogleAIScraper._extract_google_article Sample.blog_x_container base)
      as [a|] eqn:Ha; [|vm_compute in Ha; discriminate].
    cbn [fmap option_fmap option_map]. f_equal.
    rewrite (Hg _ _ _ Ha). vm_compute. reflexivity.
  - destruct (GoogleAIScraper._extract_deepmind_article Sample.blog_x_container base)
      as [a|] eqn:Ha; [|vm_compute in Ha; discriminate].
    cbn [fmap option_fmap option_map]. f_equal.
    rewrite (Hd _ _ _ Ha). vm_compute. reflexivity.
  - destruct (CompetitorScraper._extract_article_data Sample.blog_x_container competitor)
      as [a|] eqn:Ha; [|vm_compute in Ha; discriminate].
    cbn [fmap option_fmap option_map]. f_equal.
    destruct (Hc Sample.blog_x_container competitor base a
                 (Sample.a_href "/blog/x" "Read more") "/blog/x" Ha eq_refl eq_refl eq_refl)
      as [_ Hlink].
    rewrite Hlink. rewrite Hjoin by (discriminate || reflexivity).
    vm_compute. reflexivity.
Defined.

(* ===================================================================== *)
(** * Configuration *)
(* ===================================================================== *)

(** C8.  When the configuration file is absent, [_load_config] returns the
    built-in configuration, which has exactly one competitor entry, and logs a
    warning; when the file is there and [json.load] raises on it, the
    exception leaves [_load_config], and [__init__] with it. *)
Theorem _load_config_absent_or_malformed
    (read_file : string -> option string) (json_load : string -> result Config)
    (config_path : string) (w : World) :
  (read_file config_path = None ->
   CompetitorScraper._load_config read_file json_load config_path w =
     (Ok CompetitorScraper._get_default_config,
      mk_world (clock w)
               (log w ++ [(WARNING, "Config file " ++ config_path
                                    ++ " not found. Using defaults.")])
               (files w) (slept w)) /\
   exists entry, competitors CompetitorScraper._get_default_config = Some [entry]
                 /\ name entry = Some "OpenAI") /\
  (forall text msg,
      read_file config_path = Some text ->
      json_load text = Raise (JSONDecodeError msg) ->
      CompetitorScraper._load_config read_file json_load config_path w =
        (Raise (JSONDecodeError msg), w) /\
      CompetitorScraper.__init__ read_file json_load config_path w =
        (Raise (JSONDecodeError msg), w)).
Proof.
  split.
  - intros Hnone. split; [|by eexists].
    unfold CompetitorScraper._load_config, CompetitorScraper.open_read, try_except.
    rewrite Hnone. reflexivity.
  - intros text msg Hsome Hbad.
    assert (Hload : CompetitorScraper._load_config read_file json_load config_path w =
                    (Raise (JSONDecodeError msg), w)).
    { unfold CompetitorScraper._load_config, CompetitorScraper.open_read, try_except.
      rewrite Hsome. unfold mbind, M_bind, mret, M_ret, lift. by rewrite Hbad. }
    split; [done|].
    unfold CompetitorScraper.__init__, mbind, M_bind. by rewrite Hload.
Qed.

(** No file at all, and a file that is not JSON. *)
Lemma _load_config_witness :
  (fst (CompetitorScraper._load_config (fun _ => None) (fun _ => Raise (JSONDecodeError "unused"))
          "config.json" empty_world)
   = Ok CompetitorScraper._get_default_config) /\
  (fst (CompetitorScraper._load_config
          (fun _ => Some "{competitors: ")
          (fun _ => Raise (JSONDecodeError "Expecting property name enclosed in double quotes"))
          "config.json" empty_world)
   = Raise (JSONDecodeError "Expecting property name enclosed in double quotes")).
Proof.
  split.
  - destruct (_load_config_absent_or_malformed
                (fun _ => None) (fun _ => Raise (JSONDecodeError "unused"))
                "config.json" empty_world) as [Habsent _].
    destruct (Habsent eq_refl) as [-> _]. reflexivity.
  - destruct (_load_config_absent_or_malformed
                (fun _ => Some "{competitors: ")
                (fun _ => Raise (JSONDecodeError "Expecting property name enclosed in double quotes"))
                "config.json" empty_world) as [_ Hbad].
    destruct (Hbad _ _ eq_refl eq_refl) as [-> _]. reflexivity.
Defined.

(* ===================================================================== *)
(** * Aggregation *)
(* ===================================================================== *)

(** The order [<] of Python on strings is a strict order. *)
Lemma ltb_lt a b : String.ltb a b = true <-> String_as_OT.lt a b.
Proof.
  rewrite <- String_as_OT.cmp_lt. unfold String.ltb, String_as_OT.cmp.
  destruct (String.compare a b); split; congruence.
Qed.

Lemma ltb_irrefl a : String.ltb a a = false.
Proof.
  destruct (String.ltb a a) eqn:E; [|done].
  apply ltb_lt in E. by apply String_as_OT.lt_not_eq in E.
Qed.

Lemma ltb_trans a b c :
  String.ltb a b = true -> String.ltb b c = true -> String.ltb a c = true.
Proof. rewrite !ltb_lt. apply String_as_OT.lt_trans. Qed.

Lemma ltb_asym a b : String.ltb a b = true -> String.ltb b a = false.
Proof.
  intros Hab. destruct (String.ltb b a) eqn:Hba; [|done].
  pose proof (ltb_trans _ _ _ Hab Hba) as H. by rewrite ltb_irrefl in H.
Qed.

(** Below [b], hence below everything [b] is not above. *)
Lemma ltb_below a b c :
  String.ltb a b = true -> String.ltb c b = false -> String.ltb c a = false.
Proof.
  intros Hab Hcb. destruct (String.ltb c a) eqn:Hca; [|done].
  by rewrite (ltb_trans _ _ _ Hca Hab) in Hcb.
Qed.

Lemma update_stats_competitors stats d c :
  snapshot_truthy d = true ->
  Utils.competitors (Utils.update_stats stats (Some d)) !! c =
  if decide (source_of d = c)
  then Some (bump d (default (Utils.mk_cstats 0 0 0) (Utils.competitors stats !! c)))
  else Utils.competitors stats !! c.
Proof.
  intros Ht. unfold Utils.update_stats. rewrite Ht. cbn [Utils.competitors].
  fold (source_of d). fold (record_count d). fold (has_error d).
  set (k := source_of d). set (m := Utils.competitors stats).
  assert (Hzero : (if bool_decide (k ∉ dom m) then <[k:=Utils.mk_cstats 0 0 0]> m else m) !! k
                  = Some (default (Utils.mk_cstats 0 0 0) (m !! k))).
  { case_bool_decide as Hdom.
    - apply not_elem_of_dom in Hdom. by rewrite lookup_insert_eq, Hdom.
    - apply elem_of_dom in Hdom as [v Hv]. by rewrite Hv. }
  destruct (decide (k = c)) as [<-|Hne].
  - unfold bump. destruct (has_error d);
      rewrite ?lookup_alter_eq, Hzero; cbn; f_equal; f_equal; lia.
  - assert (Hother : (if bool_decide (k ∉ dom m) then <[k:=Utils.mk_cstats 0 0 0]> m else m) !! c
                     = m !! c).
    { case_bool_decide; [by rewrite lookup_insert_ne|done]. }
    destruct (has_error d); by rewrite ?lookup_alter_ne, Hother by done.
Qed.

Lemma update_stats_counted loaded stats :
  fold_left Utils.update_stats loaded stats =
  fold_left (fun st d => Utils.update_stats st (Some d)) (counted loaded) stats.
Proof.
  revert stats; induction loaded as [|o r IH]; intros stats; [done|].
  cbn [fold_left]. rewrite IH. destruct o as [d|]; [|done].
  unfold counted. cbn [omap list_omap mbind option_bind]. fold (counted r).
  destruct (snapshot_truthy d) eqn:Ht; [done|].
  unfold Utils.update_stats at 2. by rewrite Ht.
Qed.

Lemma counted_truthy loaded : Forall (fun d => snapshot_truthy d = true) (counted loaded).
Proof.
  induction loaded as [|o r IH]; [constructor|].
  unfold counted. cbn [omap list_omap mbind option_bind]. fold (counted r).
  destruct o as [d|]; [|exact IH]. cbn [mbind option_bind].
  destruct (snapshot_truthy d) eqn:Ht; [by constructor|exact IH].
Qed.

Lemma sum_list_snoc l n : sum_list (l ++ [n]) = sum_list l + n.
Proof. induction l as [|x l IH]; cbn; [lia|]. rewrite IH. lia. Qed.

Lemma per_source_snoc c docs d :
  per_source c (docs ++ [d]) =
  if decide (source_of d = c)
  then Some (bump d (default (Utils.mk_cstats 0 0 0) (per_source c docs)))
  else per_source c docs.
Proof.
  unfold per_source, of_source. cbv zeta. rewrite List.filter_app. cbn [List.filter].
  destruct (decide (source_of d = c)) as [Heq|Hne].
  - apply String.eqb_eq in Heq. rewrite Heq.
    set (l := List.filter _ docs).
    assert (Hdef : default (Utils.mk_cstats 0 0 0)
                     match l with
                     | [] => None
                     | _ :: _ => Some (Utils.mk_cstats (List.length l)
                                         (sum_list (record_count <$> l))
                                         (List.length (List.filter has_error l)))
                     end
                   = Utils.mk_cstats (List.length l) (sum_list (record_count <$> l))
                                     (List.length (List.filter has_error l)))
      by by destruct l.
    rewrite Hdef. clear Hdef.
    destruct (l ++ [d])%list eqn:Hl; [by destruct l|]. rewrite <- Hl.
    rewrite List.filter_app, fmap_app, !length_app. cbn [fmap list_fmap].
    rewrite sum_list_snoc. unfold bump. cbn.
    destruct (has_error d); cbn; f_equal; f_equal; lia.
  - apply String.eqb_neq in Hne. rewrite Hne. by rewrite app_nil_r.
Qed.

Lemma capture_times_snoc docs d :
  capture_times (docs ++ [d]) =
  (capture_times docs
     ++ option_list (timestamp d ≫= fun t => if PyStr.truthy t then Some t else None))%list.
Proof.
  unfold capture_times. rewrite omap_app. f_equal.
Qed.

Lemma capture_times_truthy docs t : t ∈ capture_times docs -> PyStr.truthy t = true.
Proof.
  unfold capture_times. intros (d & _ & Hd)%list_elem_of_omap.
  destruct (timestamp d) as [t'|]; [|done]. cbn in Hd.
  destruct (PyStr.truthy t') eqn:Ht; [|done]. by injection Hd as <-.
Qed.

Lemma lexical_min_step r ts t :
  (forall t', t' ∈ ts -> PyStr.truthy t' = true) ->
  PyStr.truthy t = true ->
  lexical_min (Utils.start r) ts ->
  lexical_min (Utils.start (Utils.update_range r (Some t))) (ts ++ [t]).
Proof.
  intros Hts Ht Hmin. unfold Utils.update_range. rewrite Ht. cbn [Utils.start].
  unfold Utils.str_lt. destruct (Utils.start r) as [m|]; cbn in *.
  - destruct Hmin as [Hm Hleast]. rewrite (Hts _ Hm). cbn.
    destruct (String.ltb t m) eqn:Hlt; cbn.
    + split; [set_solver|]. intros t' [Hin| ->%list_elem_of_singleton]%elem_of_app.
      * eapply ltb_below; eauto.
      * apply ltb_irrefl.
    + split; [set_solver|]. intros t' [Hin| ->%list_elem_of_singleton]%elem_of_app; auto.
  - subst ts. split; [set_solver|].
    intros t' ->%list_elem_of_singleton. apply ltb_irrefl.
Qed.

Lemma lexical_max_step r ts t :
  (forall t', t' ∈ ts -> PyStr.truthy t' = true) ->
  PyStr.truthy t = true ->
  lexical_max (Utils.end_ r) ts ->
  lexical_max (Utils.end_ (Utils.update_range r (Some t))) (ts ++ [t]).
Proof.
  intros Hts Ht Hmax. unfold Utils.update_range. rewrite Ht. cbn [Utils.end_].
  unfold Utils.str_lt. destruct (Utils.end_ r) as [m|]; cbn in *.
  - destruct Hmax as [Hm Hgreatest]. rewrite (Hts _ Hm). cbn.
    destruct (String.ltb m t) eqn:Hlt; cbn.
    + split; [set_solver|]. intros t' [Hin| ->%list_elem_of_singleton]%elem_of_app.
      * destruct (String.ltb t t') eqn:Htt; [|done].
        pose proof (Hgreatest _ Hin) as Hmt.
        by rewrite (ltb_trans _ _ _ Hlt Htt) in Hmt.
      * apply ltb_irrefl.
    + split; [set_solver|]. intros t' [Hin| ->%list_elem_of_singleton]%elem_of_app; auto.
  - subst ts. split; [set_solver|].
    intros t' ->%list_elem_of_singleton. apply ltb_irrefl.
Qed.

Lemma update_stats_fields stats d :
  snapshot_truthy d = true ->
  Utils.total_files (Utils.update_stats stats (Some d)) = Utils.total_files stats /\
  Utils.total_articles (Utils.update_stats stats (Some d))
    = Utils.total_articles stats + record_count d /\
  Utils.date_range (Utils.update_stats stats (Some d))
    = Utils.update_range (Utils.date_range stats) (timestamp d).
Proof. intros Ht. unfold Utils.update_stats. by rewrite Ht. Qed.

Lemma update_range_skip r (ts : option string) :
  (ts ≫= fun t => if PyStr.truthy t then Some t else None) = None ->
  Utils.update_range r ts = r.
Proof.
  destruct ts as [t|]; [|done]. cbn. unfold Utils.update_range.
  by destruct (PyStr.truthy t).
Qed.

(** The statistics of a list of counted snapshots. *)
Lemma aggregate_spec (n : nat) (docs : list Snapshot) :
  Forall (fun d => snapshot_truthy d = true) docs ->
  let stats := fold_left (fun st d => Utils.update_stats st (Some d)) docs
                 (Utils.mk_stats n 0 ∅ (Utils.mk_range None None)) in
  (forall c, Utils.competitors stats !! c = per_source c docs) /\
  Utils.total_files stats = n /\
  Utils.total_articles stats = sum_list (record_count <$> docs) /\
  lexical_min (Utils.start (Utils.date_range stats)) (capture_times docs) /\
  lexical_max (Utils.end_ (Utils.date_range stats)) (capture_times docs).
Proof.
  induction docs as [|d docs IH] using rev_ind; intros Hall stats.
  - repeat split; done.
  - apply Forall_app in Hall as [Hdocs Hd]. rewrite Forall_singleton in Hd.
    specialize (IH Hdocs). cbv zeta in IH.
    destruct IH as (Hper & Hfiles & Harticles & Hmin & Hmax).
    subst stats. rewrite fold_left_app. cbn [fold_left].
    set (st := fold_left _ docs _) in *.
    destruct (update_stats_fields st d Hd) as (Hf & Ha & Hr).
    split; [|split; [|split; [|split]]].
    + intros c. rewrite update_stats_competitors, per_source_snoc by done.
      by rewrite Hper.
    + by rewrite Hf.
    + rewrite Ha, Harticles, fmap_app. change (record_count <$> [d]) with [record_count d].
      by rewrite sum_list_snoc.
    + rewrite Hr, capture_times_snoc.
      destruct (timestamp d ≫= _) as [t|] eqn:Hts.
      * destruct (timestamp d) as [t'|]; [|done]. cbn in Hts.
        destruct (PyStr.truthy t') eqn:Ht; [|done]. injection Hts as ->.
        apply lexical_min_step; [apply capture_times_truthy|done|done].
      * rewrite update_range_skip by done. by rewrite app_nil_r.
    + rewrite Hr, capture_times_snoc.
      destruct (timestamp d ≫= _) as [t|] eqn:Hts.
      * destruct (timestamp d) as [t'|]; [|done]. cbn in Hts.
        destruct (PyStr.truthy t') eqn:Ht; [|done]. injection Hts as ->.
        apply lexical_max_step; [apply capture_times_truthy|done|done].
      * rewrite update_range_skip by done. by rewrite app_nil_r.
Qed.

Section FilesFacts.

Variable glob_json : string -> list string.
Variable read_file : string -> option string.
Variable json_load : string -> result Snapshot.

(** [load_json_file] never raises. *)
Lemma load_json_file_result file w :
  exists w', Utils.load_json_file read_file json_load file w
             = (Ok (loaded_file read_file json_load file), w').
Proof.
  unfold Utils.load_json_file, loaded_file, try_except.
  destruct (read_file file) as [text|].
  - unfold mbind, M_bind, lift. destruct (json_load text) as [d|e]; eauto.
  - eauto.
Qed.

Lemma calculate_loop_result json_files stats w :
  exists w', Utils.calculate_loop read_file json_load json_files stats w
             = (Ok (fold_left Utils.update_stats
                      (loaded_file read_file json_load <$> json_files) stats), w').
Proof.
  revert stats w; induction json_files as [|file rest IH]; intros stats w.
  - by exists w.
  - cbn [Utils.calculate_loop]. unfold mbind at 1, M_bind at 1.
    destruct (load_json_file_result file w) as [w1 ->].
    destruct (IH (Utils.update_stats stats (loaded_file read_file json_load file)) w1)
      as [w2 ->].
    by exists w2.
Qed.

End FilesFacts.

(** C7.  [calculate_statistics] returns, for every source, the number of its
    snapshots, the sum of their record counts and the number of them that
    carry an error; the range runs from the least to the greatest capture
    timestamp in the lexical order of strings.  Two snapshots of OpenAI with 4
    and 6 records and no error give [{2, 10, 0}]. *)
Theorem calculate_statistics_aggregates
    (glob_json : string -> list string) (read_file : string -> option string)
    (json_load : string -> result Snapshot) (data_dir : string) (w : World) :
  let docs := counted (loaded_file read_file json_load <$> glob_json data_dir) in
  exists stats w',
    Utils.calculate_statistics glob_json read_file json_load data_dir w = (Ok stats, w') /\
    (forall c, Utils.competitors stats !! c = per_source c docs) /\
    Utils.total_files stats = List.length (glob_json data_dir) /\
    Utils.total_articles stats = sum_list (record_count <$> docs) /\
    lexical_min (Utils.start (Utils.date_range stats)) (capture_times docs) /\
    lexical_max (Utils.end_ (Utils.date_range stats)) (capture_times docs) /\
    (forall s1 s2 l1 l2,
        of_source "OpenAI" docs = [s1; s2] ->
        articles s1 = Some l1 -> List.length l1 = 4 ->
        articles s2 = Some l2 -> List.length l2 = 6 ->
        error s1 = None -> error s2 = None ->
        Utils.competitors stats !! "OpenAI" = Some (Utils.mk_cstats 2 10 0)).
Proof.
  intros docs. unfold Utils.calculate_statistics.
  destruct (calculate_loop_result read_file json_load (glob_json data_dir)
              (Utils.mk_stats (List.length (glob_json data_dir)) 0 ∅
                              (Utils.mk_range None None)) w) as [w' Hrun].
  rewrite update_stats_counted in Hrun. fold docs in Hrun.
  eexists _, w'. split; [exact Hrun|].
  destruct (aggregate_spec (List.length (glob_json data_dir)) docs (counted_truthy _))
    as (Hper & Hfiles & Harticles & Hmin & Hmax).
  repeat (split; [done|]).
  intros s1 s2 l1 l2 Hsrc Ha1 Hl1 Ha2 Hl2 He1 He2.
  rewrite Hper. unfold per_source. rewrite Hsrc. cbn.
  unfold record_count, has_error. rewrite Ha1, Ha2, He1, He2. cbn.
  by rewrite Hl1, Hl2.
Qed.

(** The data directory with the two snapshots of OpenAI. *)
Lemma calculate_statistics_witness :
  exists stats w',
    Utils.calculate_statistics Sample.sample_glob Sample.sample_read
      Sample.sample_json_load "data/raw" empty_world = (Ok stats, w') /\
    Utils.competitors stats !! "OpenAI" = Some (Utils.mk_cstats 2 10 0).
Proof.
  destruct (calculate_statistics_aggregates Sample.sample_glob Sample.sample_read
              Sample.sample_json_load "data/raw" empty_world)
    as (stats & w' & Hrun & _ & _ & _ & _ & _ & Hopenai).
  exists stats, w'. split; [exact Hrun|].
  apply (Hopenai (Sample.openai_snapshot "2024-01-01T09:00:00.000000" 4)
                 (Sample.openai_snapshot "2024-01-02T09:00:00.000000" 6)
                 (Sample.numbered <$> seq 0 4) (Sample.numbered <$> seq 0 6));
    reflexivity.
Defined.

(* ===================================================================== *)
(** * Fetch failures *)
(* ===================================================================== *)

Lemma Ok_inj {A : Type} (a b : A) : Ok a = Ok b -> a = b.
Proof. by intros [=]. Qed.

Ltac run_monad :=
  unfold Requests.get, Requests.raise_for_status;
  unfold mbind, M_bind, mret, M_ret, try_except, raise, lift, logger, datetime_now,
         write_json, sleep; cbn beta iota zeta.




(** A timeout that is not positive is refused with a [ValueError], which
    [scrape_website] does not catch. *)
Lemma fetch_timeout_zero http self competitor u :
  c_url competitor = Some u ->
  get_or (request_timeout (CompetitorScraper.config self)) 30 = 0 ->
  exists msg, fetch http self competitor = Raise (ValueError msg).
Proof.
  intros Hu Hz. unfold fetch, Requests.get_result. rewrite Hu, Hz. cbn. by eexists.
Qed.

(** What [scrape_website] does, by the outcome of the fetch.  It reads the
    clock once and leaves the files and the pauses as they are. *)
Lemma scrape_website_failed http isoformat self c w e :
  fetch http self c = Raise e -> is_RequestException e = true ->
  exists w',
    CompetitorScraper.scrape_website http isoformat self c w =
    (Ok (snapshot_of_fetch isoformat c (clock w) (Raise e)), w') /\
    clock w' = S (clock w) /\ files w' = files w /\ slept w' = slept w.
Proof.
  unfold CompetitorScraper.scrape_website, snapshot_of_fetch, fetch. run_monad.
  destruct (Requests.get_result _ _ _ _) as [r|e0]; cbn beta iota zeta.
  - destruct (Requests.status_check _ r) as [[]|e0]; cbn beta iota zeta; [done|].
    intros [= ->] ->. eexists. by split.
  - intros [= ->] ->. eexists. by split.
Qed.

Lemma scrape_website_escapes http isoformat self c w e :
  fetch http self c = Raise e -> is_RequestException e = false ->
  exists w', CompetitorScraper.scrape_website http isoformat self c w = (Raise e, w').
Proof.
  unfold CompetitorScraper.scrape_website, snapshot_of_fetch, fetch. run_monad.
  destruct (Requests.get_result _ _ _ _) as [r|e0]; cbn beta iota zeta.
  - destruct (Requests.status_check _ r) as [[]|e0]; cbn beta iota zeta; [done|].
    intros [= ->] ->. by eexists.
  - intros [= ->] ->. by eexists.
Qed.

Lemma scrape_website_fetched http isoformat self c w response :
  fetch http self c = Ok response ->
  malformed (get_or (selector c) CompetitorScraper.sel_article) = false ->
  exists w',
    CompetitorScraper.scrape_website http isoformat self c w =
    (Ok (snapshot_of_fetch isoformat c (clock w) (Ok response)), w') /\
    clock w' = S (clock w) /\ files w' = files w /\ slept w' = slept w.
Proof.
  unfold CompetitorScraper.scrape_website, snapshot_of_fetch, fetch, scraped_articles,
    CompetitorScraper.checked_select.
  run_monad.
  destruct (Requests.get_result _ _ _ _) as [r|e0]; cbn beta iota zeta; [|done].
  destruct (Requests.status_check _ r) as [[]|e0]; cbn beta iota zeta; [|done].
  intros [= ->] ->. cbn beta iota zeta. eexists. by split.
Qed.

(** A container selector that does not parse: the [SelectorSyntaxError] of
    [soup.select] leaves [scrape_website]. *)
Lemma scrape_website_malformed http isoformat self c w response :
  fetch http self c = Ok response ->
  malformed (get_or (selector c) CompetitorScraper.sel_article) = true ->
  exists msg w',
    CompetitorScraper.scrape_website http isoformat self c w =
    (Raise (SelectorSyntaxError msg), w').
Proof.
  unfold CompetitorScraper.scrape_website, snapshot_of_fetch, fetch, scraped_articles,
    CompetitorScraper.checked_select.
  run_monad.
  destruct (Requests.get_result _ _ _ _) as [r|e0]; cbn beta iota zeta; [|done].
  destruct (Requests.status_check _ r) as [[]|e0]; cbn beta iota zeta; [|done].
  intros [= ->] ->. cbn beta iota zeta. by eexists _, _.
Qed.





(** ** HTTP 503 *)






(** ** Saving *)




(** ** The loop of [scrape_all] *)










(** The run of the sample: both snapshots carry the text of the 503. *)
Example scrape_all_503 :
  (fun r => match r with Ok l => Some (error <$> l) | Raise _ => None end)
    (CompetitorScraper.scrape_all Sample.http_503 Sample.sample_isoformat
       Sample.sample_strftime Sample.fresh_data_raw Sample.two_competitors empty_world).1
  = Some [ Some "503 Server Error: Service Unavailable for url: https://openai.com/blog";
           Some "503 Server Error: Service Unavailable for url: https://www.anthropic.com/news" ].
Proof. vm_compute. reflexivity. Qed.

(* ===================================================================== *)
(** * Article counts *)
(* ===================================================================== *)

Set Warnings "-clear-no-such-hyp".

Section FirstOccurrencesCount.

Context {K : Type} {K_eq : EqDecision K} {K_countable : Countable K}.
Variable key : Article -> option K.

Lemma first_occurrences_NoDup seen l :
  NoDup (omap key (first_occurrences key seen l)).
Proof.
  revert seen; induction l as [|a r IH]; intros seen; cbn; [constructor|].
  destruct (key a) as [k|] eqn:Hk; [case_bool_decide as Hs|]; try apply IH.
  cbn. rewrite Hk. constructor; [|apply IH].
  intros (b & Hb & Hkb)%list_elem_of_omap.
  destruct (first_occurrences_key key _ _ _ Hb) as (k' & Hk' & Hout).
  rewrite Hkb in Hk'. injection Hk' as <-. set_solver.
Qed.

(** Deduplication keeps one record per key that was not seen before. *)
Lemma first_occurrences_length seen l :
  List.length (first_occurrences key seen l)
  = size (list_to_set (omap key l) ∖ seen : gset K).
Proof.
  revert seen; induction l as [|a r IH]; intros seen; cbn.
  - by rewrite difference_disjoint_L, size_empty by set_solver.
  - destruct (key a) as [k|] eqn:Hk; [|apply IH].
    cbn [list_to_set]. case_bool_decide as Hs.
    + cbn [List.length]. rewrite IH.
      replace (({[k]} ∪ list_to_set (omap key r)) ∖ seen : gset K)
        with ({[k]} ∪ (list_to_set (omap key r) ∖ ({[k]} ∪ seen)) : gset K).
      * rewrite (size_union (C:=gset K) {[k]} (list_to_set (omap key r) ∖ ({[k]} ∪ seen))),
          size_singleton; [done|].
        intros x. rewrite elem_of_singleton, elem_of_difference, elem_of_union,
          elem_of_singleton. naive_solver.
      * apply set_eq. intros x. rewrite !elem_of_union, !elem_of_difference,
          !elem_of_union, !elem_of_singleton.
        destruct (decide (x = k)) as [->|]; naive_solver.
    + rewrite IH. f_equal. apply set_eq. intros x.
      rewrite !elem_of_difference, !elem_of_union, !elem_of_singleton.
      destruct (decide (x = k)) as [->|]; naive_solver.
Qed.

End FirstOccurrencesCount.

Lemma remove_duplicates_loop_NoDup l :
  NoDup (title <$> GoogleAIScraper.remove_duplicates_loop l ∅ []).
Proof.
  rewrite remove_duplicates_loop_spec. cbn [app].
  pose proof (first_occurrences_NoDup exact_title ∅ l) as Hnd.
  replace (title <$> first_occurrences exact_title ∅ l)
    with (omap exact_title (first_occurrences exact_title ∅ l)); [done|].
  generalize (first_occurrences exact_title ∅ l). intros u.
  induction u as [|a u IH]; cbn; [done|]. by rewrite IH.
Qed.

(** [_remove_duplicates] returns as many records as the list has distinct
    titles. *)
Lemma _remove_duplicates_length l :
  List.length (GoogleAIScraper._remove_duplicates l) = size (distinct_titles l).
Proof.
  rewrite _remove_duplicates_spec, first_occurrences_length.
  assert (Hmap : omap exact_title l = title <$> l).
  { induction l as [|a r IH]; cbn; [done|]. by rewrite IH. }
  unfold distinct_titles. by rewrite difference_empty_L, Hmap.
Qed.

(** The selector pass of [scrape_google_ai_blog] returns the records of
    [google_selector_pass]; it only writes to the log. *)
Lemma google_selector_loop_run soup selectors found w :
  exists w',
    GoogleAIScraper.google_selector_loop soup GoogleAIScraper.base_url_google_ai_blog
      selectors found w = (Ok (google_selector_pass soup selectors found), w') /\
    clock w' = clock w.
Proof.
  revert found w; induction selectors as [|[literal selector] rest IH]; intros found w.
  - by exists w.
  - cbn [GoogleAIScraper.google_selector_loop google_selector_pass].
    destruct (select selector soup) as [|e es] eqn:Hsel; [apply IH|].
    unfold mbind at 1, M_bind at 1, logger at 1.
    edestruct IH as (w' & -> & Hclock). by exists w'.
Qed.

(** What the two scrapers return, by the outcome of the fetch. *)
Lemma scrape_google_ai_blog_run http isoformat w :
  exists w',
    GoogleAIScraper.scrape_google_ai_blog http isoformat w =
    (Ok match fetch_plain http GoogleAIScraper.base_url_google_ai_blog with
        | Ok response =>
            let unique := GoogleAIScraper._remove_duplicates
                            (google_candidates (Requests.content response)) in
            {| competitor := Some "Google AI";
               snap_source := Some "Google AI Blog";
               url := Some GoogleAIScraper.base_url_google_ai_blog;
               timestamp := Some (isoformat (clock w));
               articles := Some (take 10 unique);
               article_count := Some (List.length unique);
               error := None |}
        | Raise e =>
            {| competitor := Some "Google AI";
               snap_source := Some "Google AI Blog";
               url := Some GoogleAIScraper.base_url_google_ai_blog;
               timestamp := Some (isoformat (clock w));
               articles := Some [];
               article_count := None;
               error := Some (str e) |}
        end, w').
Proof.
  unfold GoogleAIScraper.scrape_google_ai_blog, fetch_plain, google_candidates,
    GoogleAIScraper._remove_duplicates.
  run_monad.
  destruct (Requests.get_result _ _ _ _) as [r|e]; cbn beta iota zeta.
  - destruct (Requests.status_check _ r) as [[]|e]; cbn beta iota zeta.
    + edestruct google_selector_loop_run as (w1 & -> & Hclock).
      cbn beta iota zeta. cbn [clock] in Hclock. rewrite Hclock.
      eexists. reflexivity.
    + eexists. reflexivity.
  - eexists. reflexivity.
Qed.

Lemma scrape_deepmind_run http isoformat w :
  exists w',
    GoogleAIScraper.scrape_deepmind http isoformat w =
    (Ok match fetch_plain http GoogleAIScraper.base_url_deepmind with
        | Ok response =>
            let unique := GoogleAIScraper._remove_duplicates
                            (deepmind_candidates (Requests.content response)) in
            {| competitor := Some "Google AI";
               snap_source := Some "DeepMind";
               url := Some GoogleAIScraper.base_url_deepmind;
               timestamp := Some (isoformat (clock w));
               articles := Some (take 10 unique);
               article_count := Some (List.length unique);
               error := None |}
        | Raise e =>
            {| competitor := Some "Google AI";
               snap_source := Some "DeepMind";
               url := Some GoogleAIScraper.base_url_deepmind;
               timestamp := Some (isoformat (clock w));
               articles := Some [];
               article_count := None;
               error := Some (str e) |}
        end, w').
Proof.
  unfold GoogleAIScraper.scrape_deepmind, fetch_plain, deepmind_candidates. run_monad.
  destruct (Requests.get_result _ _ _ _) as [r|e]; cbn beta iota zeta.
  - destruct (Requests.status_check _ r) as [[]|e]; cbn beta iota zeta;
      eexists; reflexivity.
  - eexists. reflexivity.
Qed.

(** A successful result of [scrape_website] is the snapshot of a fetched
    page. *)
Lemma scrape_website_success http isoformat self c w s w' :
  CompetitorScraper.scrape_website http isoformat self c w = (Ok s, w') ->
  error s = None ->
  exists response,
    fetch http self c = Ok response /\
    s = snapshot_of_fetch isoformat c (clock w) (Ok response).
Proof.
  intros Hrun Hok.
  destruct (fetch http self c) as [response|e] eqn:Hfetch.
  - exists response. split; [done|].
    destruct (malformed (get_or (selector c) CompetitorScraper.sel_article)) eqn:Hsel.
    + destruct (scrape_website_malformed http isoformat self c w response Hfetch Hsel)
        as (msg & w0 & Hrun0).
      rewrite Hrun in Hrun0. discriminate Hrun0.
    + destruct (scrape_website_fetched http isoformat self c w response Hfetch Hsel)
        as (w0 & Hrun0 & _).
      rewrite Hrun in Hrun0. by injection Hrun0 as -> _.
  - destruct (is_RequestException e) eqn:He.
    + destruct (scrape_website_failed http isoformat self c w e Hfetch He)
        as (w0 & Hrun0 & _).
      rewrite Hrun in Hrun0. injection Hrun0 as -> _. discriminate Hok.
    + destruct (scrape_website_escapes http isoformat self c w e Hfetch He)
        as (w0 & Hrun0).
      rewrite Hrun in Hrun0. discriminate Hrun0.
Qed.

(** C10.  A successful result of [scrape_google_ai_blog] or of
    [scrape_deepmind] comes from a fetched page: with [unique] the
    deduplicated candidate records of that page, it lists the first 10 of
    [unique] and counts all of them, as many as the candidates have distinct
    titles.  So [article_count] exceeds the length of [articles] as soon as
    the page has more than 10 distinct titles: a page of twelve posts gives
    12 and 10 in both scrapers.  A successful result of [scrape_website]
    lists the records extracted from the fetched page and counts what it
    lists. *)
Theorem article_count_is_uncapped (isoformat : nat -> string) :
  (forall http w s w',
      GoogleAIScraper.scrape_google_ai_blog http isoformat w = (Ok s, w') ->
      error s = None ->
      exists response,
        fetch_plain http GoogleAIScraper.base_url_google_ai_blog = Ok response /\
        let candidates := google_candidates (Requests.content response) in
        let unique := GoogleAIScraper._remove_duplicates candidates in
        articles s = Some (take 10 unique) /\
        article_count s = Some (List.length unique) /\
        List.length unique = size (distinct_titles candidates) /\
        List.length (take 10 unique) = Nat.min 10 (size (distinct_titles candidates))) /\
  (forall http w s w',
      GoogleAIScraper.scrape_deepmind http isoformat w = (Ok s, w') ->
      error s = None ->
      exists response,
        fetch_plain http GoogleAIScraper.base_url_deepmind = Ok response /\
        let candidates := deepmind_candidates (Requests.content response) in
        let unique := GoogleAIScraper._remove_duplicates candidates in
        articles s = Some (take 10 unique) /\
        article_count s = Some (List.length unique) /\
        List.length unique = size (distinct_titles candidates) /\
        List.length (take 10 unique) = Nat.min 10 (size (distinct_titles candidates))) /\
  (forall http self c w s w',
      CompetitorScraper.scrape_website http isoformat self c w = (Ok s, w') ->
      error s = None ->
      exists response,
        fetch http self c = Ok response /\
        let found := scraped_articles c (Requests.content response) in
        articles s = Some found /\ article_count s = Some (List.length found)) /\
  (exists http s w',
      GoogleAIScraper.scrape_google_ai_blog http isoformat empty_world = (Ok s, w') /\
      error s = None /\
      article_count s = Some 12 /\
      List.length <$> articles s = Some 10) /\
  (exists http s w',
      GoogleAIScraper.scrape_deepmind http isoformat empty_world = (Ok s, w') /\
      error s = None /\
      article_count s = Some 12 /\
      List.length <$> articles s = Some 10).
Proof.
  split; [|split; [|split; [|split]]].
  - intros http w s w' Hrun Hok.
    destruct (scrape_google_ai_blog_run http isoformat w) as (w0 & Hrun0).
    rewrite Hrun in Hrun0. apply (f_equal fst) in Hrun0. cbn [fst] in Hrun0.
    apply Ok_inj in Hrun0. subst s.
    destruct (fetch_plain _ _) as [r|e]; [|discriminate Hok].
    exists r. split; [reflexivity|]. cbn zeta. split; [reflexivity|]. split; [reflexivity|].
    rewrite length_take, _remove_duplicates_length. split; [reflexivity|lia].
  - intros http w s w' Hrun Hok.
    destruct (scrape_deepmind_run http isoformat w) as (w0 & Hrun0).
    rewrite Hrun in Hrun0. apply (f_equal fst) in Hrun0. cbn [fst] in Hrun0.
    apply Ok_inj in Hrun0. subst s.
    destruct (fetch_plain _ _) as [r|e]; [|discriminate Hok].
    exists r. split; [reflexivity|]. cbn zeta. split; [reflexivity|]. split; [reflexivity|].
    rewrite length_take, _remove_duplicates_length. split; [reflexivity|lia].
  - intros http self c w s w' Hrun Hok.
    destruct (scrape_website_success http isoformat self c w s w' Hrun Hok)
      as (response & Hfetch & ->).
    exists response. split; [exact Hfetch|]. split; reflexivity.
  - destruct (scrape_google_ai_blog_run Sample.http_twelve isoformat empty_world)
      as (w' & Hrun).
    eexists Sample.http_twelve, _, w'. split; [exact Hrun|].
    clear Hrun. vm_compute. repeat split.
  - destruct (scrape_deepmind_run Sample.http_twelve isoformat empty_world) as (w' & Hrun).
    eexists Sample.http_twelve, _, w'. split; [exact Hrun|].
    clear Hrun. vm_compute. repeat split.
Qed.

(** The page of twelve posts, scraped by [scrape_deepmind]: 10 records
    listed, 12 counted, the number of distinct titles among the candidates. *)
Lemma article_count_witness :
  exists s w' response,
    GoogleAIScraper.scrape_deepmind Sample.http_twelve Sample.sample_isoformat empty_world
      = (Ok s, w') /\
    fetch_plain Sample.http_twelve GoogleAIScraper.base_url_deepmind = Ok response /\
    article_count s
    = Some (size (distinct_titles (deepmind_candidates (Requests.content response)))) /\
    List.length <$> articles s
    = Some (Nat.min 10 (size (distinct_titles
                                (deepmind_candidates (Requests.content response))))).
Proof.
  destruct (article_count_is_uncapped Sample.sample_isoformat) as (_ & Hdeepmind & _).
  destruct (scrape_deepmind_run Sample.http_twelve Sample.sample_isoformat empty_world)
    as (w' & Hrun).
  destruct (Hdeepmind _ _ _ _ Hrun eq_refl) as (response & Hfetch & Ha & Hc & Hn & Hl).
  eexists _, w', response. split; [exact Hrun|]. split; [exact Hfetch|].
  split.
  - rewrite <- Hn. exact Hc.
  - rewrite <- Hl. exact (f_equal (fmap List.length) Ha).
Defined.

(* ===================================================================== *)
(** * Further properties: truncation *)
(* ===================================================================== *)

Lemma PyStr_length_append a b :
  String.length (a ++ b) = String.length a + String.length b.
Proof.
  induction a as [|c a IH]; [done|].
  rewrite PyStr_append_cons. cbn [String.length]. by rewrite IH.
Qed.

(** X1.  With a cap of at least 3, [truncate_text] never returns more than
    the cap: a text within the cap is returned as it is, and a longer one is
    cut to its first [max_length - 3] characters followed by three dots,
    which is exactly [max_length] characters. *)
Theorem truncate_text_within_cap (text : string) (max_length : Z) :
  (3 <= max_length)%Z ->
  (Z.of_nat (String.length (Utils.truncate_text text max_length)) <= max_length)%Z /\
  ((Z.of_nat (String.length text) <= max_length)%Z ->
   Utils.truncate_text text max_length = text) /\
  ((max_length < Z.of_nat (String.length text))%Z ->
   Utils.truncate_text text max_length
     = PyStr.take (Z.to_nat (max_length - 3)) text ++ "..." /\
   Z.of_nat (String.length (Utils.truncate_text text max_length)) = max_length).
Proof.
  intros Hcap. unfold Utils.truncate_text, Utils.slice_to.
  destruct (PyStr.truthy text) eqn:Ht; cbn [negb].
  - destruct (Z.leb_spec (Z.of_nat (String.length text)) max_length) as [Hle|Hgt].
    + split; [lia|]. split; [done|]. intros; lia.
    + destruct (Z.leb_spec 0 (max_length - 3)) as [_|]; [|lia].
      assert (Hlen : Z.of_nat (String.length
                       (PyStr.take (Z.to_nat (max_length - 3)) text ++ "...")) = max_length).
      { rewrite PyStr_length_append, PyStr_length_take. cbn [String.length]. lia. }
      split; [lia|]. split; [intros; lia|done].
  - apply PyStr_truthy_false in Ht. subst text. cbn [String.length].
    split; [lia|]. split; [done|]. cbn. intros; lia.
Qed.

Lemma truncate_text_within_cap_witness :
  Utils.truncate_text "Anthropic releases a new model" 12 = "Anthropic..." /\
  Utils.truncate_text "OpenAI" 12 = "OpenAI".
Proof.
  destruct (truncate_text_within_cap "Anthropic releases a new model" 12 ltac:(lia))
    as (_ & _ & Hlong).
  destruct (truncate_text_within_cap "OpenAI" 12 ltac:(lia)) as (_ & Hshort & _).
  split.
  - destruct Hlong as [-> _]; [cbn; lia|reflexivity].
  - apply Hshort. cbn; lia.
Defined.

(** X2.  With a cap below 3 the cap does not hold: a non-empty text longer
    than the cap comes back with the three dots and is longer than the cap. *)
Theorem truncate_text_small_cap_exceeded (text : string) (max_length : Z) :
  (max_length < 3)%Z ->
  text <> "" ->
  (max_length < Z.of_nat (String.length text))%Z ->
  (max_length < Z.of_nat (String.length (Utils.truncate_text text max_length)))%Z /\
  exists kept, Utils.truncate_text text max_length = kept ++ "...".
Proof.
  intros Hcap Hne%PyStr_truthy_true Hlong. unfold Utils.truncate_text.
  rewrite Hne. cbn [negb].
  destruct (Z.leb_spec (Z.of_nat (String.length text)) max_length) as [|_]; [lia|].
  split; [|by eexists].
  rewrite PyStr_length_append. cbn [String.length]. lia.
Qed.

Lemma truncate_text_small_cap_witness :
  (2 < Z.of_nat (String.length (Utils.truncate_text "OpenAI" 2)))%Z.
Proof.
  apply (truncate_text_small_cap_exceeded "OpenAI" 2); [lia|discriminate|cbn; lia].
Defined.

(* ===================================================================== *)
(** * Further properties: merging *)
(* ===================================================================== *)

Section FirstOccurrencesApp.

Context {K : Type} {K_eq : EqDecision K} {K_countable : Countable K}.
Variable key : Article -> option K.

Lemma first_occurrences_app seen l1 l2 :
  first_occurrences key seen (l1 ++ l2) =
  (first_occurrences key seen l1
     ++ first_occurrences key (seen ∪ list_to_set (omap key l1)) l2)%list.
Proof.
  revert seen; induction l1 as [|a r IH]; intros seen; cbn.
  - by rewrite union_empty_r_L.
  - destruct (key a) as [k|] eqn:Hk; [|apply IH].
    cbn [list_to_set]. case_bool_decide as Hs.
    + rewrite IH. cbn. do 3 f_equal. set_solver.
    + rewrite IH. do 2 f_equal. set_solver.
Qed.

Lemma first_occurrences_keys seen l :
  seen ∪ list_to_set (omap key (first_occurrences key seen l))
  = seen ∪ list_to_set (omap key l).
Proof.
  revert seen; induction l as [|a r IH]; intros seen; cbn; [done|].
  destruct (key a) as [k|] eqn:Hk; [|apply IH].
  cbn [list_to_set]. case_bool_decide as Hs.
  - cbn. rewrite Hk. cbn [list_to_set].
    specialize (IH ({[k]} ∪ seen)). set_solver.
  - specialize (IH seen). set_solver.
Qed.

(** Deduplicating what is already deduplicated together with more records is
    deduplicating everything at once. *)
Lemma first_occurrences_incremental l1 l2 :
  first_occurrences key ∅ (first_occurrences key ∅ l1 ++ l2)
  = first_occurrences key ∅ (l1 ++ l2).
Proof.
  rewrite !first_occurrences_app, first_occurrences_keys.
  by rewrite first_occurrences_fixed.
Qed.

End FirstOccurrencesApp.

Lemma all_articles_app D1 D2 :
  all_articles (D1 ++ D2) = (all_articles D1 ++ all_articles D2)%list.
Proof. unfold all_articles. apply flat_map_app. Qed.

(** X3.  Merging can be done in steps: the articles merged from a first batch
    of snapshots, merged again with a second batch, are the articles merged
    from both batches at once. *)
Theorem merge_competitor_data_incremental (D1 D2 : list Snapshot) :
  Utils.m_articles
    (Utils.merge_competitor_data
       (snapshot_of (Utils.m_articles (Utils.merge_competitor_data D1)) :: D2))
  = Utils.m_articles (Utils.merge_competitor_data (D1 ++ D2)).
Proof.
  rewrite !merge_competitor_data_spec.
  change (snapshot_of ?l :: D2) with ([snapshot_of l] ++ D2)%list.
  rewrite !all_articles_app, all_articles_snapshot_of.
  apply first_occurrences_incremental.
Qed.

Lemma collect_timestamps_errors data_list merged :
  Utils.timestamps (fold_left Utils.collect data_list merged)
    = (Utils.timestamps merged ++ (timestamp <$> data_list))%list /\
  Utils.errors (fold_left Utils.collect data_list merged)
    = (Utils.errors merged ++ omap error data_list)%list.
Proof.
  revert merged; induction data_list as [|d r IH]; intros merged; cbn.
  - by rewrite !app_nil_r.
  - destruct (IH (Utils.collect merged d)) as [-> ->]. cbn.
    rewrite <- app_assoc. split; [done|].
    destruct (error d); [by rewrite <- app_assoc|done].
Qed.

(** X4.  [merge_competitor_data] lists one timestamp per snapshot, in order,
    a missing timestamp as [None], and the errors of the snapshots that have
    one, in order; unlike the articles, neither list is deduplicated. *)
Theorem merge_competitor_data_timestamps_errors (data_list : list Snapshot) :
  Utils.timestamps (Utils.merge_competitor_data data_list) = (timestamp <$> data_list) /\
  Utils.errors (Utils.merge_competitor_data data_list) = omap error data_list /\
  List.length (Utils.timestamps (Utils.merge_competitor_data data_list))
    = List.length data_list.
Proof.
  unfold Utils.merge_competitor_data. cbn [Utils.timestamps Utils.errors].
  destruct (collect_timestamps_errors data_list (Utils.mk_merged [] [] [])) as [-> ->].
  cbn. by rewrite length_fmap.
Qed.

(* ===================================================================== *)
(** * Further properties: statistics *)
(* ===================================================================== *)

(** The statistics, as a fold over the counted documents. *)
Lemma calculate_statistics_run glob_json read_file json_load data_dir w :
  exists w',
    Utils.calculate_statistics glob_json read_file json_load data_dir w =
    (Ok (fold_left (fun st d => Utils.update_stats st (Some d))
           (counted (loaded_file read_file json_load <$> glob_json data_dir))
           (Utils.mk_stats (List.length (glob_json data_dir)) 0 ∅
                           (Utils.mk_range None None))), w').
Proof.
  unfold Utils.calculate_statistics.
  destruct (calculate_loop_result read_file json_load (glob_json data_dir)
              (Utils.mk_stats (List.length (glob_json data_dir)) 0 ∅
                              (Utils.mk_range None None)) w) as [w' Hrun].
  rewrite update_stats_counted in Hrun. by exists w'.
Qed.

Lemma length_filter_le {A : Type} (f : A -> bool) (l : list A) :
  List.length (List.filter f l) <= List.length l.
Proof. induction l as [|x l IH]; cbn; [lia|]. destruct (f x); cbn; lia. Qed.

Lemma sum_list_filter_le {A : Type} (f : A -> bool) (g : A -> nat) (l : list A) :
  sum_list (g <$> List.filter f l) <= sum_list (g <$> l).
Proof. induction l as [|x l IH]; cbn; [lia|]. destruct (f x); cbn; lia. Qed.

Lemma length_counted loaded : List.length (counted loaded) <= List.length loaded.
Proof.
  induction loaded as [|o r IH]; [done|].
  unfold counted. cbn [omap list_omap]. fold (counted r).
  destruct (o ≫= _); cbn; lia.
Qed.

(** X5.  In the statistics, a source that has an entry has at least one
    file; its errors are at most its files, its files at most [total_files]
    (which also counts the files that could not be loaded), and its articles
    at most [total_articles]. *)
Theorem calculate_statistics_bounds
    (glob_json : string -> list string) (read_file : string -> option string)
    (json_load : string -> result Snapshot) (data_dir : string) (w : World)
    (stats : Utils.Stats) (w' : World) (c : string) (entry : Utils.CompetitorStats) :
  Utils.calculate_statistics glob_json read_file json_load data_dir w = (Ok stats, w') ->
  Utils.competitors stats !! c = Some entry ->
  1 <= Utils.file_count entry /\
  Utils.error_count entry <= Utils.file_count entry /\
  Utils.file_count entry <= Utils.total_files stats /\
  Utils.article_count entry <= Utils.total_articles stats /\
  Utils.total_files stats = List.length (glob_json data_dir).
Proof.
  intros Hrun Hentry.
  destruct (calculate_statistics_run glob_json read_file json_load data_dir w) as [w0 Hrun0].
  rewrite Hrun in Hrun0. apply (f_equal fst) in Hrun0. cbn [fst] in Hrun0.
  apply Ok_inj in Hrun0. subst stats.
  set (docs := counted (loaded_file read_file json_load <$> glob_json data_dir)) in *.
  destruct (aggregate_spec (List.length (glob_json data_dir)) docs (counted_truthy _))
    as (Hper & Hfiles & Harticles & _ & _).
  rewrite Hper in Hentry. rewrite Hfiles, Harticles. unfold per_source in Hentry.
  cbv zeta in Hentry. unfold of_source in Hentry.
  pose proof (length_filter_le (fun d => String.eqb (source_of d) c) docs) as Hlen.
  pose proof (sum_list_filter_le (fun d => String.eqb (source_of d) c) record_count docs)
    as Hsum.
  pose proof (length_counted (loaded_file read_file json_load <$> glob_json data_dir))
    as Hcounted.
  rewrite length_fmap in Hcounted. fold docs in Hcounted.
  destruct (List.filter _ docs) as [|d ds] eqn:Hds; [done|].
  apply (inj Some) in Hentry. subst entry. cbn [Utils.file_count Utils.error_count
    Utils.article_count].
  pose proof (length_filter_le has_error (d :: ds)) as Herr.
  cbn [List.length] in *. repeat split; lia.
Qed.

Lemma calculate_statistics_bounds_witness :
  exists stats w' entry,
    Utils.calculate_statistics Sample.sample_glob Sample.sample_read
      Sample.sample_json_load "data/raw" empty_world = (Ok stats, w') /\
    Utils.competitors stats !! "OpenAI" = Some entry /\
    Utils.error_count entry <= Utils.file_count entry /\
    Utils.file_count entry <= Utils.total_files stats.
Proof.
  destruct (Utils.calculate_statistics Sample.sample_glob Sample.sample_read
              Sample.sample_json_load "data/raw" empty_world) as [[stats|e] w'] eqn:Hrun;
    [|vm_compute in Hrun; discriminate].
  destruct (Utils.competitors stats !! "OpenAI") as [entry|] eqn:Hentry.
  - destruct (calculate_statistics_bounds _ _ _ _ _ _ _ _ _ Hrun Hentry)
      as (_ & He & Hf & _ & _).
    by exists stats, w', entry.
  - exfalso. vm_compute in Hrun. injection Hrun as <- _.
    vm_compute in Hentry. discriminate.
Defined.

Lemma filter_Permutation {A : Type} (f : A -> bool) (l l' : list A) :
  l ≡ₚ l' -> List.filter f l ≡ₚ List.filter f l'.
Proof.
  induction 1 as [|x l l' _ IH|x y l|l l' l'' _ IH1 _ IH2]; cbn.
  - done.
  - destruct (f x); [by constructor|done].
  - destruct (f x), (f y); try done. apply perm_swap.
  - by etrans.
Qed.

Lemma sum_list_Permutation (l l' : list nat) : l ≡ₚ l' -> sum_list l = sum_list l'.
Proof.
  induction 1 as [|x l l' _ IH|x y l|l l' l'' _ IH1 _ IH2]; cbn; lia.
Qed.

Lemma per_source_Permutation c docs docs' :
  docs ≡ₚ docs' -> per_source c docs = per_source c docs'.
Proof.
  intros Hperm. unfold per_source, of_source. cbv zeta.
  pose proof (filter_Permutation (fun d => String.eqb (source_of d) c) _ _ Hperm) as Hds.
  set (ds := List.filter _ docs) in *. set (ds' := List.filter _ docs') in *.
  assert (Hlen : List.length ds = List.length ds') by by apply Permutation_length.
  assert (Hsum : sum_list (record_count <$> ds) = sum_list (record_count <$> ds')).
  { apply sum_list_Permutation. by apply fmap_Permutation. }
  assert (Herr : List.length (List.filter has_error ds)
                 = List.length (List.filter has_error ds')).
  { apply Permutation_length. by apply filter_Permutation. }
  destruct ds, ds'; try done. by rewrite Hlen, Hsum, Herr.
Qed.

(** Two strings neither of which is below the other are equal. *)
Lemma ltb_antisym a b : String.ltb a b = false -> String.ltb b a = false -> a = b.
Proof.
  unfold String.ltb. rewrite (String.compare_antisym b a).
  destruct (String.compare a b) eqn:Hc; cbn; try done.
  intros _ _. by apply String.compare_eq_iff.
Qed.

Lemma lexical_min_unique o o' ts ts' :
  ts ≡ₚ ts' -> lexical_min o ts -> lexical_min o' ts' -> o = o'.
Proof.
  intros Hperm. unfold lexical_min. destruct o as [t|], o' as [t'|].
  - intros [Hin Hleast] [Hin' Hleast']. f_equal. apply ltb_antisym.
    + apply Hleast'. by rewrite <- Hperm.
    + apply Hleast. by rewrite Hperm.
  - intros [Hin _] ->. apply Permutation_nil_r in Hperm. subst. by inversion Hin.
  - intros -> [Hin' _]. apply Permutation_nil_l in Hperm. subst. by inversion Hin'.
  - done.
Qed.

Lemma lexical_max_unique o o' ts ts' :
  ts ≡ₚ ts' -> lexical_max o ts -> lexical_max o' ts' -> o = o'.
Proof.
  intros Hperm. unfold lexical_max. destruct o as [t|], o' as [t'|].
  - intros [Hin Hgreatest] [Hin' Hgreatest']. f_equal. apply ltb_antisym.
    + apply Hgreatest. by rewrite Hperm.
    + apply Hgreatest'. by rewrite <- Hperm.
  - intros [Hin _] ->. apply Permutation_nil_r in Hperm. subst. by inversion Hin.
  - intros -> [Hin' _]. apply Permutation_nil_l in Hperm. subst. by inversion Hin'.
  - done.
Qed.

(** X6.  The statistics do not depend on the order in which the directory
    lists its files: two listings of the same files give the same
    statistics. *)
Theorem calculate_statistics_order_independent
    (glob1 glob2 : string -> list string) (read_file : string -> option string)
    (json_load : string -> result Snapshot) (data_dir : string)
    (w1 w2 : World) (stats1 stats2 : Utils.Stats) (w1' w2' : World) :
  glob1 data_dir ≡ₚ glob2 data_dir ->
  Utils.calculate_statistics glob1 read_file json_load data_dir w1 = (Ok stats1, w1') ->
  Utils.calculate_statistics glob2 read_file json_load data_dir w2 = (Ok stats2, w2') ->
  stats1 = stats2.
Proof.
  intros Hperm Hrun1 Hrun2.
  destruct (calculate_statistics_run glob1 read_file json_load data_dir w1) as [v1 Hr1].
  destruct (calculate_statistics_run glob2 read_file json_load data_dir w2) as [v2 Hr2].
  rewrite Hrun1 in Hr1. rewrite Hrun2 in Hr2.
  apply (f_equal fst) in Hr1, Hr2. cbn [fst] in Hr1, Hr2.
  apply Ok_inj in Hr1, Hr2.
  set (docs1 := counted (loaded_file read_file json_load <$> glob1 data_dir)) in *.
  set (docs2 := counted (loaded_file read_file json_load <$> glob2 data_dir)) in *.
  assert (Hdocs : docs1 ≡ₚ docs2).
  { unfold docs1, docs2, counted. by apply omap_Permutation, fmap_Permutation. }
  destruct (aggregate_spec (List.length (glob1 data_dir)) docs1 (counted_truthy _))
    as (Hper1 & Hfiles1 & Harticles1 & Hmin1 & Hmax1).
  destruct (aggregate_spec (List.length (glob2 data_dir)) docs2 (counted_truthy _))
    as (Hper2 & Hfiles2 & Harticles2 & Hmin2 & Hmax2).
  rewrite <- Hr1 in *. rewrite <- Hr2 in *. clear Hr1 Hr2.
  assert (Htimes : capture_times docs1 ≡ₚ capture_times docs2)
    by by apply omap_Permutation.
  destruct stats1 as [f1 a1 c1 [s1 e1]], stats2 as [f2 a2 c2 [s2 e2]]. cbn in *.
  f_equal.
  - rewrite Hfiles1, Hfiles2. by apply Permutation_length.
  - rewrite Harticles1, Harticles2. by apply sum_list_Permutation, fmap_Permutation.
  - apply map_eq. intros c. rewrite Hper1, Hper2. by apply per_source_Permutation.
  - f_equal; [by eapply lexical_min_unique|by eapply lexical_max_unique].
Qed.

Lemma calculate_statistics_order_witness :
  fst (Utils.calculate_statistics Sample.sample_glob Sample.sample_read
         Sample.sample_json_load "data/raw" empty_world)
  = fst (Utils.calculate_statistics (fun dir => rev (Sample.sample_glob dir))
           Sample.sample_read Sample.sample_json_load "data/raw" empty_world).
Proof.
  destruct (Utils.calculate_statistics Sample.sample_glob Sample.sample_read
              Sample.sample_json_load "data/raw" empty_world) as [[s1|e1] w1] eqn:H1;
    [|vm_compute in H1; discriminate].
  destruct (Utils.calculate_statistics (fun dir => rev (Sample.sample_glob dir))
              Sample.sample_read Sample.sample_json_load "data/raw" empty_world)
    as [[s2|e2] w2] eqn:H2; [|vm_compute in H2; discriminate].
  cbn [fst]. f_equal.
  exact (calculate_statistics_order_independent _ _ _ _ _ _ _ _ _ _ _
           (Permutation_rev _) H1 H2).
Defined.

(* ===================================================================== *)
(** * Further properties: the scraper *)
(* ===================================================================== *)





(** A title selector that does not parse: the [SelectorSyntaxError] is caught
    inside [_extract_article_data], which returns no record. *)
Lemma _extract_article_data_malformed element competitor :
  malformed (get_or (title_selector competitor) CompetitorScraper.sel_h2_h3) = true ->
  CompetitorScraper._extract_article_data element competitor = None.
Proof.
  intros Hsel.
  unfold CompetitorScraper._extract_article_data, CompetitorScraper.extract_article_body,
    CompetitorScraper.checked_select_one, mbind, result_bind.
  by rewrite Hsel.
Qed.







